(** * Gemini Vision Analyzer: validation and query layer of [v3.py]

    A shallow embedding of the two operations of [v3.py] that carry a
    contract, [validate_image] and [GeminiVisionAnalyzer] (its constructor
    and [analyze_image]), and the properties of them that the specification
    states.

    The program is Python glue around two libraries that are not part of the
    repository: Pillow ([Image.open], [Image.convert], the [mode] attribute)
    and [google.generativeai] ([configure], [GenerativeModel],
    [generate_content], the [text] property of a response).  The libraries
    are an interface of the development (class [Libraries]); every call
    into them may raise, may change the state of the outside world, and is
    recorded in a call log, so that statements such as "no decode is
    performed" are about something.  Module [Sim] is one concrete instance
    of the libraries, on which the program runs by computation. *)

From Stdlib Require Import String List ZArith Lia.
Import ListNotations.
Local Open Scope string_scope.
Local Open Scope Z_scope.

(** ** Python values the program handles *)

(** An instance of Python's [Exception] class, which is what
    [except Exception as e] catches; the program observes it only through
    [str(e)] and by raising it again.  ([KeyboardInterrupt], [SystemExit] and
    [GeneratorExit] are not instances of [Exception]; they are asynchronous
    signals and not outcomes of a library call on a given input, and are
    outside the model.) *)
Record Exception : Type := mkException {
  exc_class : string;     (* the class name, e.g. "OSError" *)
  exc_str : string        (* str(e) *)
}.

(** [str(e)] *)
Definition str (e : Exception) : string := exc_str e.

(** The upload handle of the file picker: [uploaded_file.size] is its
    declared byte length, [data] the byte stream it reads. *)
Record UploadedFile : Type := mkUploadedFile {
  size : Z;
  data : list Byte.byte
}.

(** What a Python call does: it returns a value or raises. *)
Inductive outcome (A : Type) : Type :=
| Return (a : A)
| Raise (e : Exception).
Arguments Return {A} a.
Arguments Raise {A} e.

(** Truth value of a [str] in a condition: the empty string is false. *)
Definition truthy (s : string) : bool :=
  match s with
  | EmptyString => false
  | String _ _ => true
  end.

(** [x in xs] for a list of strings. *)
Fixpoint str_in (x : string) (xs : list string) : bool :=
  match xs with
  | [] => false
  | y :: ys => if String.eqb x y then true else str_in x ys
  end.

(** One element of the list given to [generate_content]: the prompt or the
    image. *)
Inductive Part (Image : Type) : Type :=
| PText (s : string)
| PImage (i : Image).
Arguments PText {Image} s.
Arguments PImage {Image} i.

(** ** The libraries *)

(** Pillow and [google.generativeai], as far as the program uses them. *)
Class Libraries : Type := {
  (** The state of everything outside the program: the remote service, the
      global configuration of the client library, the position of file
      streams. *)
  World : Type;

  (** [PIL.Image.Image], with its [mode] attribute. *)
  Image : Type;
  Image_mode : Image -> string;

  (** [Image.open(fp)] and [image.convert(mode)]. *)
  Image_open : UploadedFile -> World -> outcome Image * World;
  Image_convert : Image -> string -> World -> outcome Image * World;

  (** [genai.GenerativeModel] and the response of [generate_content]. *)
  Model : Type;
  Response : Type;

  (** [genai.configure(api_key=...)] and [genai.GenerativeModel(name)]. *)
  genai_configure : string -> World -> outcome unit * World;
  genai_GenerativeModel : string -> World -> outcome Model * World;

  (** [model.generate_content(parts)] *)
  generate_content :
    Model -> list (Part Image) -> World -> outcome Response * World;

  (** The property [response.text]: a property is code, and may raise. *)
  Response_text : Response -> outcome string
}.

Section Program.

Context {L : Libraries}.

(** *** Calls, state and exceptions *)

(** A call that left the program. *)
Inductive Event : Type :=
| EvOpen (f : UploadedFile)
| EvConvert (i : Image) (mode : string)
| EvConfigure (api_key : string)
| EvGenerativeModel (model_name : string)
| EvGenerate (m : Model) (parts : list (Part Image))
| EvLogInfo (msg : string)
| EvLogError (msg : string).

Record State : Type := mkState {
  world : World;
  calls : list Event      (* oldest first *)
}.

(** A piece of Python code: from a state to an outcome and a state.  What
    was done before a [raise] stays done. *)
Definition M (A : Type) : Type := State -> outcome A * State.

Definition ret {A} (a : A) : M A := fun s => (Return a, s).

Definition raise {A} (e : Exception) : M A := fun s => (Raise e, s).

Definition bind {A B} (m : M A) (k : A -> M B) : M B :=
  fun s =>
    match m s with
    | (Return a, s') => k a s'
    | (Raise e, s') => (Raise e, s')
    end.

(** [try: body  except Exception as e: handler] *)
Definition try_except {A} (body : M A) (handler : Exception -> M A) : M A :=
  fun s =>
    match body s with
    | (Return a, s') => (Return a, s')
    | (Raise e, s') => handler e s'
    end.

(** A library call: logged, then run on the world. *)
Definition call {A} (ev : Event) (f : World -> outcome A * World) : M A :=
  fun s =>
    let (r, w) := f (world s) in
    (r, {| world := w; calls := calls s ++ [ev] |}).

(** Reading a property of an object. *)
Definition attr {A} (r : outcome A) : M A := fun s => (r, s).

(** [logger.info(msg)] and [logger.error(msg)]: the [logging] module does
    not raise into its caller. *)
Definition logger_info (msg : string) : M unit :=
  fun s => (Return tt, {| world := world s; calls := calls s ++ [EvLogInfo msg] |}).

Definition logger_error (msg : string) : M unit :=
  fun s => (Return tt, {| world := world s; calls := calls s ++ [EvLogError msg] |}).

Notation "x <- m ;; k" := (bind m (fun x => k))
  (at level 61, m at next level, right associativity).

(** *** The program *)

(** [class GeminiVisionAnalyzer]: its only attribute is [self.model]. *)
Record GeminiVisionAnalyzer : Type := mkGeminiVisionAnalyzer {
  model : Model
}.

(** [GeminiVisionAnalyzer.__init__(self, api_key)], as the constructor
    call [GeminiVisionAnalyzer(api_key)]: the object is the result only if
    [__init__] returns. *)
Definition GeminiVisionAnalyzer__init__ (api_key : string)
  : M GeminiVisionAnalyzer :=
  try_except
    (_ <- call (EvConfigure api_key) (genai_configure api_key) ;;
     m <- call (EvGenerativeModel "gemini-1.5-flash")
               (genai_GenerativeModel "gemini-1.5-flash") ;;
     _ <- logger_info "Gemini model initialized." ;;
     ret {| model := m |})
    (fun e =>
       _ <- logger_error ("Gemini init failed: " ++ str e) ;;
       raise e).

(** [GeminiVisionAnalyzer.analyze_image(self, image, question)] *)
Definition analyze_image (self : GeminiVisionAnalyzer) (image : Image)
           (question : string) : M (bool * string) :=
  try_except
    (let prompt :=
       "Please analyze the picture and answer the question: " ++ question in
     response <- call (EvGenerate (model self) [PText prompt; PImage image])
                      (generate_content (model self)
                                        [PText prompt; PImage image]) ;;
     t <- attr (Response_text response) ;;
     if truthy t then
       t' <- attr (Response_text response) ;;
       ret (true, t')
     else
       ret (false, "No response from model."))
    (fun e => ret (false, "Error: " ++ str e)).

(** [validate_image(uploaded_file)]; [None] is the absent upload. *)
Definition validate_image (uploaded_file : option UploadedFile)
  : M (bool * option Image * string) :=
  match uploaded_file with
  | None => ret (false, None, "No file uploaded.")
  | Some f =>
      try_except
        (if size f >? 10 * 1024 * 1024 then
           ret (false, None, "File size exceeds 10MB.")
         else
           image <- call (EvOpen f) (Image_open f) ;;
           image <- (if str_in (Image_mode image) ["RGBA"; "LA"; "P"] then
                       call (EvConvert image "RGB")
                            (Image_convert image "RGB")
                     else ret image) ;;
           ret (true, Some image, "Image validated successfully."))
        (fun e => ret (false, None, "Invalid image file: " ++ str e))
  end.

(** The list [[prompt, image]] that [analyze_image] gives to
    [generate_content] for a question. *)
Definition request (image : Image) (question : string) : list (Part Image) :=
  [PText ("Please analyze the picture and answer the question: " ++ question);
   PImage image].

End Program.

(** ** A concrete instance of the libraries

    A small stand-in for Pillow and for the remote service, on which the
    program runs by computation.  The decoder reads a three-byte header
    (mode tag, width, height); the remote service answers from a script. *)
Module Sim.

Record image : Type := mkImage {
  mode : string;
  width : Z;
  height : Z
}.

(** The mode a header tag stands for; the modes are Pillow's. *)
Definition mode_of_tag (b : Byte.byte) : option string :=
  match b with
  | Byte.x00 => Some "RGB"
  | Byte.x01 => Some "RGBA"
  | Byte.x02 => Some "L"
  | Byte.x03 => Some "P"
  | Byte.x04 => Some "LA"
  | Byte.x05 => Some "CMYK"
  | _ => None
  end.

Definition UnidentifiedImageError : Exception :=
  mkException "UnidentifiedImageError" "cannot identify image file".

Definition decode (bytes : list Byte.byte) : outcome image :=
  match bytes with
  | tag :: w :: h :: _ =>
      match mode_of_tag tag with
      | Some m => Return (mkImage m (Z.of_N (Byte.to_N w)) (Z.of_N (Byte.to_N h)))
      | None => Raise UnidentifiedImageError
      end
  | _ => Raise UnidentifiedImageError
  end.

(** What the remote service sends back for one request: the generated
    candidates, or an error. *)
Record response : Type := mkResponse {
  candidates : list string
}.

Record world : Type := mkWorld {
  api_key : option string;                (* set by [configure] *)
  script : list (outcome response)        (* the replies still to come *)
}.

Definition open (f : UploadedFile) (w : world) : outcome image * world :=
  (decode (data f), w).

Definition convert (i : image) (m : string) (w : world)
  : outcome image * world :=
  (Return (mkImage m (width i) (height i)), w).

Definition configure (key : string) (w : world) : outcome unit * world :=
  if truthy key then (Return tt, mkWorld (Some key) (script w))
  else (Raise (mkException "ValueError" "No API key provided."), w).

Definition GenerativeModel (model_name : string) (w : world)
  : outcome string * world :=
  match api_key w with
  | Some _ => (Return model_name, w)
  | None => (Raise (mkException "PermissionDenied" "403 API key not valid."), w)
  end.

Definition generate (m : string) (parts : list (Part image)) (w : world)
  : outcome response * world :=
  match script w with
  | r :: rest => (r, mkWorld (api_key w) rest)
  | [] => (Raise (mkException "ServiceUnavailable" "503 The service is unavailable."), w)
  end.

(** [response.text] of the client library raises when the response has no
    candidate, and is the first candidate otherwise. *)
Definition text (r : response) : outcome string :=
  match candidates r with
  | c :: _ => Return c
  | [] => Raise (mkException "ValueError" "The response has no candidates.")
  end.

#[export] Instance libs : Libraries := {|
  World := world;
  Image := image;
  Image_mode := mode;
  Image_open := open;
  Image_convert := convert;
  Model := string;
  Response := response;
  genai_configure := configure;
  genai_GenerativeModel := GenerativeModel;
  generate_content := generate;
  Response_text := text
|}.

(** A state with nothing configured and an empty call log. *)
Definition start (replies : list (outcome response)) : State :=
  mkState (mkWorld None replies) [].

End Sim.

(** Uploads the examples run on. *)
Module Examples.

(** A 16 x 16 picture of each kind, a few bytes long. *)
Definition rgb_file : UploadedFile :=
  mkUploadedFile 3 [Byte.x00; Byte.x10; Byte.x10].

Definition rgba_file : UploadedFile :=
  mkUploadedFile 3 [Byte.x01; Byte.x10; Byte.x10].

Definition gray_file : UploadedFile :=
  mkUploadedFile 3 [Byte.x02; Byte.x10; Byte.x10].


(** A file that declares 12 MiB. *)
Definition big_file : UploadedFile :=
  mkUploadedFile (12 * 1024 * 1024) [Byte.x00; Byte.x10; Byte.x10].

Definition rgb_image : @Image Sim.libs := Sim.mkImage "RGB" 16 16.
Definition rgba_image : @Image Sim.libs := Sim.mkImage "RGBA" 16 16.
Definition gray_image : @Image Sim.libs := Sim.mkImage "L" 16 16.

(** An analyzer of the simulated service. *)
Definition analyzer : GeminiVisionAnalyzer (L := Sim.libs) :=
  mkGeminiVisionAnalyzer (L := Sim.libs) "gemini-1.5-flash".

(** A reply of the remote service with one candidate. *)
Definition reply (s : string) : outcome Sim.response :=
  Return (Sim.mkResponse [s]).

(** An error of the remote service. *)
Definition quota_error : Exception :=
  mkException "ResourceExhausted" "429 Quota exceeded.".

End Examples.

(** ** What the libraries promise *)

(** Pillow's contract for [convert]: the image it returns has the mode that
    was asked for. *)
Definition convert_gives_mode (L : Libraries) : Prop :=
  forall (i i' : Image) (m : string) (w w' : World),
    Image_convert i m w = (Return i', w') -> Image_mode i' = m.

(** ** The page

    The statements of [main] that act on what the user gave: the upload
    column ([if uploaded_file: ...]) and the handler of the Analyze button
    ([if analyze: ...]).  The values of the widgets ([st.text_input],
    [st.file_uploader], [st.text_area], [st.button]) are their inputs.  The
    static markup of the page (style sheet, headers, side bar, footer) is
    not modelled. *)

(** What [main] uses besides Pillow and the client library. *)
Class Frontend (L : Libraries) : Type := {
  (** [s.strip()] *)
  str_strip : string -> string;

  (** [st.image(image, caption=..., use_column_width=True)]: it encodes the
      image for the browser, and may raise. *)
  st_image : Image -> string -> World -> outcome unit * World
}.

Section Page.

Context {L : Libraries} {F : Frontend L}.

(** A call of Streamlit that puts something on the page. *)
Inductive Render : Type :=
| StMarkdown (body : string)                  (* st.markdown(body, unsafe_allow_html=True) *)
| StImage (image : Image) (caption : string)  (* st.image(image, caption=...) *)
| StSpinner (text : string).                  (* with st.spinner(text): *)

(** The libraries' side and the page's side of a run of the script. *)
Record Session : Type := mkSession {
  backend : State;
  shown : list Render       (* oldest first *)
}.

(** A piece of [main]. *)
Definition UI (A : Type) : Type := Session -> outcome A * Session.

Definition ui_ret {A} (a : A) : UI A := fun u => (Return a, u).

Definition ui_raise {A} (e : Exception) : UI A := fun u => (Raise e, u).

Definition ui_bind {A B} (m : UI A) (k : A -> UI B) : UI B :=
  fun u =>
    match m u with
    | (Return a, u') => k a u'
    | (Raise e, u') => (Raise e, u')
    end.

(** [try: body  except Exception as e: handler], in [main]. *)
Definition ui_try_except {A} (body : UI A) (handler : Exception -> UI A)
  : UI A :=
  fun u =>
    match body u with
    | (Return a, u') => (Return a, u')
    | (Raise e, u') => handler e u'
    end.

(** A call of [validate_image] or of the analyzer from [main]. *)
Definition lift {A} (m : M A) : UI A :=
  fun u =>
    let (r, s) := m (backend u) in
    (r, {| backend := s; shown := shown u |}).

(** [st.markdown(body, unsafe_allow_html=True)]: the text is queued for the
    browser; like the logger, it does not raise into its caller. *)
Definition st_markdown (body : string) : UI unit :=
  fun u =>
    (Return tt, {| backend := backend u; shown := shown u ++ [StMarkdown body] |}).

(** Entering [with st.spinner(text):]. *)
Definition st_spinner (text : string) : UI unit :=
  fun u =>
    (Return tt, {| backend := backend u; shown := shown u ++ [StSpinner text] |}).

(** [st.image(image, caption=caption, use_column_width=True)] *)
Definition show_image (image : Image) (caption : string) : UI unit :=
  fun u =>
    let (r, w) := st_image image caption (world (backend u)) in
    (r, {| backend := {| world := w; calls := calls (backend u) |};
           shown := shown u ++ [StImage image caption] |}).

(** The f-strings [<div class='error-box'>{msg}</div>] and
    [<div class='success-box'>{msg}</div>]. *)
Definition error_box (msg : string) : string :=
  "<div class='error-box'>" ++ msg ++ "</div>".

Definition success_box (msg : string) : string :=
  "<div class='success-box'>" ++ msg ++ "</div>".

(** A text that [main] shows in an error box or in a success box. *)
Definition is_box (body : string) : Prop :=
  (exists msg, body = error_box msg) \/ (exists msg, body = success_box msg).

(** Stands for the error of a library that is given [None] for a picture.
    It is not reached: [validate_image] gives an image whenever its flag is
    true. *)
Definition NoImage : Exception :=
  mkException "TypeError" "the image is None".

Notation "x <- m ;; k" := (ui_bind m (fun x => k))
  (at level 61, m at next level, right associativity).

(** The upload column of [main], from [if uploaded_file:] on.  An upload
    handle is a true value, [None] a false one. *)
Definition main_upload (uploaded_file : option UploadedFile) : UI unit :=
  match uploaded_file with
  | None => ui_ret tt
  | Some _ =>
      v <- lift (validate_image uploaded_file) ;;
      let '(is_valid, image, msg) := v in
      if is_valid then
        _ <- match image with
             | Some i => show_image i "Uploaded Image"
             | None => ui_raise NoImage
             end ;;
        st_markdown (success_box msg)
      else
        st_markdown (error_box msg)
  end.

(** The handler of the Analyze button in [main]: [if analyze: ...]. *)
Definition main_analyze (analyze : bool) (api_key : string)
           (uploaded_file : option UploadedFile) (question : string)
  : UI unit :=
  if analyze then
    if negb (truthy api_key) then
      st_markdown (error_box "❗ Please provide your API key.")
    else
      match uploaded_file with
      | None => st_markdown (error_box "❗ Please upload an image.")
      | Some _ =>
          if negb (truthy (str_strip question)) then
            st_markdown (error_box "❗ Please enter a question.")
          else
            v <- lift (validate_image uploaded_file) ;;
            let '(is_valid, image, msg) := v in
            if negb is_valid then
              st_markdown (error_box msg)
            else
              ui_try_except
                (analyzer <- (_ <- st_spinner "Initializing Gemini..." ;;
                              lift (GeminiVisionAnalyzer__init__ api_key)) ;;
                 r <- (_ <- st_spinner "Analyzing image..." ;;
                       match image with
                       | Some i => lift (analyze_image analyzer i question)
                       | None => ui_raise NoImage
                       end) ;;
                 let '(success, result) := r in
                 if success then
                   _ <- st_markdown
                          "<div class='section-header'>📋 Result</div>" ;;
                   st_markdown (success_box result)
                 else
                   st_markdown (error_box result))
                (fun e => st_markdown (error_box ("🚫 Error: " ++ str e)))
      end
  else
    ui_ret tt.

End Page.

(** ** A second instance of the libraries

    It differs from [Sim] where Pillow and the service can be stricter:
    [Image.open] reads the header only and [convert] loads the pixels (one
    byte each), which fails on a file that is cut short; and the service
    refuses a key that does not look like one of its own. *)
Module Lazy.

Record image : Type := mkImage {
  mode : string;
  width : Z;
  height : Z;
  pixels : list Byte.byte       (* what follows the header *)
}.

Definition open (f : UploadedFile) (w : Sim.world)
  : outcome image * Sim.world :=
  match data f with
  | tag :: wd :: ht :: rest =>
      match Sim.mode_of_tag tag with
      | Some m =>
          (Return (mkImage m (Z.of_N (Byte.to_N wd)) (Z.of_N (Byte.to_N ht))
                           rest), w)
      | None => (Raise Sim.UnidentifiedImageError, w)
      end
  | _ => (Raise Sim.UnidentifiedImageError, w)
  end.

Definition convert (i : image) (m : string) (w : Sim.world)
  : outcome image * Sim.world :=
  if Z.of_nat (List.length (pixels i)) <? width i * height i then
    (Raise (mkException "OSError" "image file is truncated"), w)
  else
    (Return (mkImage m (width i) (height i) (pixels i)), w).

Definition GenerativeModel (model_name : string) (w : Sim.world)
  : outcome string * Sim.world :=
  match Sim.api_key w with
  | Some key =>
      if String.prefix "AIza" key then (Return model_name, w)
      else (Raise (mkException "PermissionDenied" "403 API key not valid."), w)
  | None => (Raise (mkException "PermissionDenied" "403 API key not valid."), w)
  end.

Definition generate (m : string) (parts : list (Part image)) (w : Sim.world)
  : outcome Sim.response * Sim.world :=
  match Sim.script w with
  | r :: rest => (r, Sim.mkWorld (Sim.api_key w) rest)
  | [] => (Raise (mkException "ServiceUnavailable" "503 The service is unavailable."), w)
  end.

#[export] Instance libs : Libraries := {|
  World := Sim.world;
  Image := image;
  Image_mode := mode;
  Image_open := open;
  Image_convert := convert;
  Model := string;
  Response := Sim.response;
  genai_configure := Sim.configure;
  genai_GenerativeModel := GenerativeModel;
  generate_content := generate;
  Response_text := Sim.text
|}.

(** A state with nothing configured and an empty call log. *)
Definition start (replies : list (outcome Sim.response)) : State :=
  mkState (Sim.mkWorld None replies) [].

End Lazy.

(** ** An instance of what [main] uses *)
Module Front.

(** The blanks of ASCII that [str.strip] removes: tab to carriage return,
    the four separators, and the space. *)
Definition is_space (c : Ascii.ascii) : bool :=
  let n := Ascii.nat_of_ascii c in
  ((9 <=? n)%nat && (n <=? 13)%nat) || ((28 <=? n)%nat && (n <=? 32)%nat).

Fixpoint lstrip (s : string) : string :=
  match s with
  | EmptyString => EmptyString
  | String c s' => if is_space c then lstrip s' else s
  end.

Fixpoint rstrip (s : string) : string :=
  match s with
  | EmptyString => EmptyString
  | String c s' =>
      match rstrip s' with
      | EmptyString => if is_space c then EmptyString else String c EmptyString
      | r => String c r
      end
  end.

(** [s.strip()] for a text in ASCII. *)
Definition strip (s : string) : string := rstrip (lstrip s).

#[export] Instance for_sim : Frontend Sim.libs := {|
  str_strip := strip;
  st_image := fun (_ : @Image Sim.libs) (_ : string) (w : @World Sim.libs) =>
                (Return tt, w)
|}.

(** With the lazy decoder, showing a picture is what loads its pixels. *)
#[export] Instance for_lazy : Frontend Lazy.libs := {|
  str_strip := strip;
  st_image := fun (i : @Image Lazy.libs) (_ : string) (w : @World Lazy.libs) =>
                match Lazy.convert i (Lazy.mode i) w with
                | (Return _, w') => (Return tt, w')
                | (Raise e, w') => (Raise e, w')
                end
|}.

(** A session on an empty page. *)
Definition fresh_sim (replies : list (outcome Sim.response))
  : Session (L := Sim.libs) :=
  mkSession (L := Sim.libs) (Sim.start replies) [].

Definition fresh_lazy (replies : list (outcome Sim.response))
  : Session (L := Lazy.libs) :=
  mkSession (L := Lazy.libs) (Lazy.start replies) [].

End Front.

(** ** Properties *)

Section Properties.

Context {L : Libraries}.

(** Reduce what a library call left behind: matches on its result and
    projections of the state. *)
Ltac step := cbn beta iota zeta delta [world calls].

Tactic Notation "step" "in" hyp(H) :=
  cbn beta iota zeta delta [world calls] in H.

(** Unfold the monad down to matches on the library calls. *)
Ltac run :=
  unfold try_except, bind, call, attr, ret, raise, logger_info, logger_error;
  step.

(** *** Strings and the size test *)

Lemma truthy_true_iff (s : string) : truthy s = true <-> s <> "".
Proof.
  destruct s; simpl; split; intro H; try discriminate; try reflexivity.
  exfalso; apply H; reflexivity.
Qed.

Lemma truthy_false_iff (s : string) : truthy s = false <-> s = "".
Proof.
  destruct s; simpl; split; intro H; try discriminate; reflexivity.
Qed.

Lemma append_nonempty (a b : string) : a <> "" -> a ++ b <> "".
Proof.
  destruct a as [|c a]; simpl; [intro H; exfalso; apply H; reflexivity|].
  intros _; discriminate.
Qed.

Lemma str_in_spec (x : string) (xs : list string) :
  str_in x xs = true <-> In x xs.
Proof.
  induction xs as [|y ys IH]; simpl.
  - split; [discriminate | intros []].
  - destruct (String.eqb_spec x y) as [->|Hne].
    + split; auto.
    + rewrite IH; split; [auto | intros [Heq|Hin]; [congruence | exact Hin]].
Qed.

Lemma RGB_not_converted : str_in "RGB" ["RGBA"; "LA"; "P"] = false.
Proof. reflexivity. Qed.

Lemma within_budget (f : UploadedFile) :
  size f <= 10 * 1024 * 1024 -> (size f >? 10 * 1024 * 1024) = false.
Proof. intro H; rewrite Z.gtb_ltb; apply Z.ltb_ge; lia. Qed.

Lemma over_budget (f : UploadedFile) :
  size f > 10 * 1024 * 1024 -> (size f >? 10 * 1024 * 1024) = true.
Proof. intro H; rewrite Z.gtb_ltb; apply Z.ltb_lt; lia. Qed.

(** *** [validate_image] *)

(** C6. With no file ([None]), [validate_image] returns
    [(False, None, "No file uploaded.")]; it returns (it does not raise), and
    it returns that before the size test and before any call on the handle:
    the state, call log included, is the one it started from. *)
Theorem validate_image_no_file (s : State) :
  validate_image None s = (Return (false, None, "No file uploaded."), s).
Proof. reflexivity. Qed.

(** C3. A handle whose declared size is more than [10 * 1024 * 1024] bytes is
    refused with ["File size exceeds 10MB."], whatever its bytes are; nothing
    is decoded: the call log and the world are untouched. *)
Theorem validate_image_oversized (f : UploadedFile) (s : State) :
  size f > 10 * 1024 * 1024 ->
  validate_image (Some f) s
  = (Return (false, None, "File size exceeds 10MB."), s).
Proof.
  intro H. unfold validate_image. run.
  rewrite (over_budget f H). reflexivity.
Qed.


(** The same outcome when the image opens and the conversion fails. *)
Lemma validate_image_convert_failure
      (f : UploadedFile) (s : State) (img : Image) (e : Exception)
      (w1 w2 : World) :
  size f <= 10 * 1024 * 1024 ->
  Image_open f (world s) = (Return img, w1) ->
  str_in (Image_mode img) ["RGBA"; "LA"; "P"] = true ->
  Image_convert img "RGB" w1 = (Raise e, w2) ->
  validate_image (Some f) s
  = (Return (false, None, "Invalid image file: " ++ str e),
     {| world := w2; calls := calls s ++ [EvOpen f] ++ [EvConvert img "RGB"] |}).
Proof.
  intros Hsize Hopen Hmode Hconv. unfold validate_image. run.
  rewrite (within_budget f Hsize), Hopen. step. rewrite Hmode. step.
  rewrite Hconv. rewrite <- app_assoc. reflexivity.
Qed.

(** A decoded image whose mode is not one of the three is returned as it
    is, and [convert] is not called. *)
Lemma validate_image_unconverted
      (f : UploadedFile) (s : State) (img : Image) (w1 : World) :
  size f <= 10 * 1024 * 1024 ->
  Image_open f (world s) = (Return img, w1) ->
  str_in (Image_mode img) ["RGBA"; "LA"; "P"] = false ->
  validate_image (Some f) s
  = (Return (true, Some img, "Image validated successfully."),
     {| world := w1; calls := calls s ++ [EvOpen f] |}).
Proof.
  intros Hsize Hopen Hmode. unfold validate_image. run.
  rewrite (within_budget f Hsize), Hopen. step. rewrite Hmode. reflexivity.
Qed.

(** A decoded image whose mode is one of the three is converted, and the
    result of the conversion is returned. *)
Lemma validate_image_converted
      (f : UploadedFile) (s : State) (img img' : Image) (w1 w2 : World) :
  size f <= 10 * 1024 * 1024 ->
  Image_open f (world s) = (Return img, w1) ->
  str_in (Image_mode img) ["RGBA"; "LA"; "P"] = true ->
  Image_convert img "RGB" w1 = (Return img', w2) ->
  validate_image (Some f) s
  = (Return (true, Some img', "Image validated successfully."),
     {| world := w2; calls := calls s ++ [EvOpen f] ++ [EvConvert img "RGB"] |}).
Proof.
  intros Hsize Hopen Hmode Hconv. unfold validate_image. run.
  rewrite (within_budget f Hsize), Hopen. step. rewrite Hmode. step.
  rewrite Hconv. rewrite <- app_assoc. reflexivity.
Qed.


(** What a successful validation went through. *)
Lemma validate_image_valid_inv
      (f : UploadedFile) (s s' : State) (out : Image) (msg : string) :
  validate_image (Some f) s = (Return (true, Some out, msg), s') ->
  exists (img : Image) (w1 : World),
    Image_open f (world s) = (Return img, w1) /\
    ((str_in (Image_mode img) ["RGBA"; "LA"; "P"] = false /\ out = img) \/
     (str_in (Image_mode img) ["RGBA"; "LA"; "P"] = true /\
      exists w2, Image_convert img "RGB" w1 = (Return out, w2))).
Proof.
  unfold validate_image. run.
  destruct (size f >? 10 * 1024 * 1024); [discriminate|].
  destruct (Image_open f (world s)) as [[img|e] w1]; step; [|discriminate].
  intro H. exists img, w1. split; [reflexivity|].
  destruct (str_in (Image_mode img) ["RGBA"; "LA"; "P"]); step in H.
  - right. split; [reflexivity|].
    destruct (Image_convert img "RGB" w1) as [[img'|e] w2]; step in H;
      [|discriminate].
    exists w2. congruence.
  - left. split; [reflexivity|]. congruence.
Qed.

(** With Pillow's contract for [convert], an image that [validate_image]
    returns never has one of the three converted modes. *)
Lemma validate_image_valid_mode
      (f : UploadedFile) (s s' : State) (out : Image) (msg : string) :
  convert_gives_mode L ->
  validate_image (Some f) s = (Return (true, Some out, msg), s') ->
  str_in (Image_mode out) ["RGBA"; "LA"; "P"] = false.
Proof.
  intros Hconv H.
  destruct (validate_image_valid_inv f s s' out msg H)
    as (img & w1 & _ & [[Hmode ->] | [_ [w2 Hc]]]).
  - exact Hmode.
  - rewrite (Hconv _ _ _ _ _ Hc). reflexivity.
Qed.

(** C1, as the code has it. A file within the budget that decodes to an
    image of mode RGBA, LA or P is converted with [convert("RGB")], and the
    image returned is the converted one, of mode RGB (by Pillow's contract
    for [convert]); an image decoded in any other mode is returned as it is,
    with the mode it has. *)
Theorem validate_image_normalizes
        (f : UploadedFile) (s : State) (img : Image) (w1 : World) :
  convert_gives_mode L ->
  size f <= 10 * 1024 * 1024 ->
  Image_open f (world s) = (Return img, w1) ->
  (In (Image_mode img) ["RGBA"; "LA"; "P"] ->
   forall (img' : Image) (w2 : World),
     Image_convert img "RGB" w1 = (Return img', w2) ->
     validate_image (Some f) s
     = (Return (true, Some img', "Image validated successfully."),
        {| world := w2;
           calls := calls s ++ [EvOpen f] ++ [EvConvert img "RGB"] |})
     /\ Image_mode img' = "RGB")
  /\
  (~ In (Image_mode img) ["RGBA"; "LA"; "P"] ->
   validate_image (Some f) s
   = (Return (true, Some img, "Image validated successfully."),
      {| world := w1; calls := calls s ++ [EvOpen f] |})).
Proof.
  intros Hconv Hsize Hopen. split.
  - intros Hin img' w2 Hc. split.
    + apply validate_image_converted with (w1 := w1); auto.
      apply str_in_spec. exact Hin.
    + exact (Hconv _ _ _ _ _ Hc).
  - intro Hnin. apply validate_image_unconverted; auto.
    destruct (str_in (Image_mode img) ["RGBA"; "LA"; "P"]) eqn:E; [|reflexivity].
    exfalso. apply Hnin. apply str_in_spec. exact E.
Qed.

(** C7. A file within the budget that decodes to an image whose mode is
    already RGB gets that very image back, and [convert] is not called (the
    only call is the one that opens the file).  Validating again a handle
    that opens as the returned image returns the same image once more. *)
Theorem validate_image_RGB_unchanged
        (f : UploadedFile) (s : State) (img : Image) (w1 : World) :
  size f <= 10 * 1024 * 1024 ->
  Image_open f (world s) = (Return img, w1) ->
  Image_mode img = "RGB" ->
  validate_image (Some f) s
  = (Return (true, Some img, "Image validated successfully."),
     {| world := w1; calls := calls s ++ [EvOpen f] |})
  /\
  (forall (f2 : UploadedFile) (s2 : State) (w2 : World),
      size f2 <= 10 * 1024 * 1024 ->
      Image_open f2 (world s2) = (Return img, w2) ->
      validate_image (Some f2) s2
      = (Return (true, Some img, "Image validated successfully."),
         {| world := w2; calls := calls s2 ++ [EvOpen f2] |})).
Proof.
  intros Hsize Hopen Hmode.
  assert (Hnot : str_in (Image_mode img) ["RGBA"; "LA"; "P"] = false)
    by (rewrite Hmode; apply RGB_not_converted).
  split.
  - apply validate_image_unconverted; assumption.
  - intros f2 s2 w2 Hsize2 Hopen2.
    apply validate_image_unconverted; assumption.
Qed.


(** C10. On every input [validate_image] returns a triple (it does not
    raise); the image is there exactly when the flag is true, and a triple
    with a false flag has no image and a reason that is not empty. *)
Theorem validate_image_well_formed
        (uploaded_file : option UploadedFile) (s : State) :
  exists (flag : bool) (oimg : option Image) (msg : string) (s' : State),
    validate_image uploaded_file s = (Return (flag, oimg, msg), s') /\
    (flag = true <-> exists img, oimg = Some img) /\
    (flag = false -> oimg = None /\ msg <> "").
Proof.
  assert (Hfail : forall (msg : string),
             msg <> "" ->
             (false = true <-> exists img : Image, @None Image = Some img) /\
             (false = false -> @None Image = None /\ msg <> "")).
  { intros msg Hmsg. split; [split|]; [discriminate | intros [? ?]; discriminate |].
    intros _. split; [reflexivity | exact Hmsg]. }
  assert (Hok : forall (img : Image) (msg : string),
             (true = true <-> exists img0 : Image, Some img = Some img0) /\
             (true = false -> Some img = None /\ msg <> "")).
  { intros img msg. split; [split|]; [eauto | reflexivity | discriminate]. }
  destruct uploaded_file as [f|]; unfold validate_image; run.
  - destruct (size f >? 10 * 1024 * 1024).
    { do 4 eexists; split; [reflexivity|]. apply Hfail. discriminate. }
    destruct (Image_open f (world s)) as [[img|e] w1]; step.
    + destruct (str_in (Image_mode img) ["RGBA"; "LA"; "P"]); step.
      * destruct (Image_convert img "RGB" w1) as [[img'|e] w2]; step.
        { do 4 eexists; split; [reflexivity|]. apply Hok. }
        { do 4 eexists; split; [reflexivity|]. apply Hfail.
          apply append_nonempty. discriminate. }
      * do 4 eexists; split; [reflexivity|]. apply Hok.
    + do 4 eexists; split; [reflexivity|]. apply Hfail.
      apply append_nonempty. discriminate.
  - do 4 eexists; split; [reflexivity|]. apply Hfail. discriminate.
Qed.

(** *** [GeminiVisionAnalyzer] *)

(** An exception raised by [generate_content] is caught and reported. *)
Lemma analyze_image_raise
      (self : GeminiVisionAnalyzer) (image : Image) (question : string)
      (s : State) (e : Exception) (w' : World) :
  generate_content (model self) (request image question) (world s)
  = (Raise e, w') ->
  analyze_image self image question s
  = (Return (false, "Error: " ++ str e),
     {| world := w';
        calls := calls s ++ [EvGenerate (model self) (request image question)] |}).
Proof.
  intro Hgen.
  unfold analyze_image, request in *. run. rewrite Hgen. reflexivity.
Qed.

(** C2. When the remote call raises [e], [analyze_image] returns
    [(False, "Error: " ++ str e)]: the exception stops there, and the string
    returned is not empty. *)
Theorem analyze_image_remote_error
        (self : GeminiVisionAnalyzer) (image : Image) (question : string)
        (s : State) (e : Exception) (w' : World) :
  generate_content (model self) (request image question) (world s)
  = (Raise e, w') ->
  analyze_image self image question s
  = (Return (false, "Error: " ++ str e),
     {| world := w';
        calls := calls s ++ [EvGenerate (model self) (request image question)] |})
  /\ "Error: " ++ str e <> "".
Proof.
  intro Hgen. split.
  - apply analyze_image_raise. exact Hgen.
  - apply append_nonempty. discriminate.
Qed.

(** An exception raised by the property [response.text] ends the same way. *)
Lemma analyze_image_text_error
      (self : GeminiVisionAnalyzer) (image : Image) (question : string)
      (s : State) (resp : Response) (e : Exception) (w' : World) :
  generate_content (model self) (request image question) (world s)
  = (Return resp, w') ->
  Response_text resp = Raise e ->
  analyze_image self image question s
  = (Return (false, "Error: " ++ str e),
     {| world := w';
        calls := calls s ++ [EvGenerate (model self) (request image question)] |}).
Proof.
  intros Hgen Htext.
  unfold analyze_image, request in *. run. rewrite Hgen. step.
  rewrite Htext. reflexivity.
Qed.

(** What [analyze_image] returns for a response whose text is [t]. *)
Lemma analyze_image_text
      (self : GeminiVisionAnalyzer) (image : Image) (question : string)
      (s : State) (resp : Response) (t : string) (w' : World) :
  generate_content (model self) (request image question) (world s)
  = (Return resp, w') ->
  Response_text resp = Return t ->
  analyze_image self image question s
  = (Return (if truthy t then (true, t)
             else (false, "No response from model.")),
     {| world := w';
        calls := calls s ++ [EvGenerate (model self) (request image question)] |}).
Proof.
  intros Hgen Htext.
  unfold analyze_image, request in *. run. rewrite Hgen. step.
  rewrite Htext. step. destruct (truthy t); reflexivity.
Qed.

(** [analyze_image] returns in every case, after exactly one call of
    [generate_content]. *)
Lemma analyze_image_returns
      (self : GeminiVisionAnalyzer) (image : Image) (question : string)
      (s : State) :
  exists (flag : bool) (msg : string) (w' : World),
    analyze_image self image question s
    = (Return (flag, msg),
       {| world := w';
          calls := calls s ++ [EvGenerate (model self) (request image question)] |}).
Proof.
  destruct (generate_content (model self) (request image question) (world s))
    as [[resp|e] w'] eqn:Hgen.
  - destruct (Response_text resp) as [t|e] eqn:Htext.
    + rewrite (analyze_image_text self image question s resp t w' Hgen Htext).
      destruct (truthy t); eauto.
    + rewrite (analyze_image_text_error self image question s resp e w' Hgen Htext).
      eauto.
  - rewrite (analyze_image_raise self image question s e w' Hgen). eauto.
Qed.

(** C4, as the code has it. When the remote call returns a response:
    if reading its [text] gives a string [t], [analyze_image] returns
    [(True, t)] when [t] is not empty and
    [(False, "No response from model.")] when it is; if reading its [text]
    raises [e], as the client library does for a response that carries no
    text, [analyze_image] returns [(False, "Error: " ++ str e)].  Conversely
    [(True, a)] is returned only for a response whose text is [a], not
    empty, and [(False, "No response from model.")] only for a response
    whose text is the empty string. *)
Theorem analyze_image_response
        (self : GeminiVisionAnalyzer) (image : Image) (question : string)
        (s : State) :
  (forall (resp : Response) (t : string) (w' : World),
      generate_content (model self) (request image question) (world s)
      = (Return resp, w') ->
      Response_text resp = Return t ->
      let s' := {| world := w';
                   calls := calls s ++ [EvGenerate (model self)
                                                   (request image question)] |} in
      (t <> "" ->
       analyze_image self image question s = (Return (true, t), s')) /\
      (t = "" ->
       analyze_image self image question s
       = (Return (false, "No response from model."), s')))
  /\
  (forall (resp : Response) (e : Exception) (w' : World),
      generate_content (model self) (request image question) (world s)
      = (Return resp, w') ->
      Response_text resp = Raise e ->
      analyze_image self image question s
      = (Return (false, "Error: " ++ str e),
         {| world := w';
            calls := calls s ++ [EvGenerate (model self)
                                            (request image question)] |}))
  /\
  (forall (a : string) (s' : State),
      analyze_image self image question s = (Return (true, a), s') ->
      a <> "" /\
      exists (resp : Response) (w' : World),
        generate_content (model self) (request image question) (world s)
        = (Return resp, w') /\
        Response_text resp = Return a)
  /\
  (forall (s' : State),
      analyze_image self image question s
      = (Return (false, "No response from model."), s') ->
      exists (resp : Response) (w' : World),
        generate_content (model self) (request image question) (world s)
        = (Return resp, w') /\
        Response_text resp = Return "").
Proof.
  split; [|split; [|split]].
  - intros resp t w' Hgen Htext s'.
    pose proof (analyze_image_text self image question s resp t w' Hgen Htext)
      as H.
    split; intro Ht.
    + apply truthy_true_iff in Ht. rewrite Ht in H. exact H.
    + apply truthy_false_iff in Ht. rewrite Ht in H. exact H.
  - intros resp e w' Hgen Htext.
    exact (analyze_image_text_error self image question s resp e w' Hgen Htext).
  - intros a s' H.
    destruct (generate_content (model self) (request image question) (world s))
      as [[resp|e] w'] eqn:Hgen.
    + destruct (Response_text resp) as [t|e] eqn:Htext.
      * rewrite (analyze_image_text self image question s resp t w' Hgen Htext)
          in H.
        destruct (truthy t) eqn:Ht; [|discriminate].
        assert (a = t) by congruence. subst a.
        split; [apply truthy_true_iff; exact Ht|].
        exists resp, w'. split; [reflexivity | exact Htext].
      * rewrite (analyze_image_text_error self image question s resp e w'
                                          Hgen Htext) in H.
        discriminate.
    + rewrite (analyze_image_raise self image question s e w' Hgen) in H.
      discriminate.
  - intros s' H.
    destruct (generate_content (model self) (request image question) (world s))
      as [[resp|e] w'] eqn:Hgen.
    + destruct (Response_text resp) as [t|e] eqn:Htext.
      * rewrite (analyze_image_text self image question s resp t w' Hgen Htext)
          in H.
        destruct (truthy t) eqn:Ht; [discriminate|].
        apply truthy_false_iff in Ht. subst t.
        exists resp, w'. split; [reflexivity | exact Htext].
      * rewrite (analyze_image_text_error self image question s resp e w'
                                          Hgen Htext) in H.
        simpl in H. discriminate.
    + rewrite (analyze_image_raise self image question s e w' Hgen) in H.
      simpl in H. discriminate.
Qed.

(** C8. For every question, the empty one and one of blanks included,
    [analyze_image] calls [generate_content] of its model once, on the list
    of the instruction followed by the question, and the image, in the
    world it starts from.  What it returns is read off the outcome of that
    call, the world it leaves is the one that call left, and the call is the
    only one it adds to the log. *)
Theorem analyze_image_request
        (self : GeminiVisionAnalyzer) (image : Image) (question : string)
        (s : State) :
  let parts :=
    [PText ("Please analyze the picture and answer the question: "
            ++ question);
     PImage image] in
  let sent := generate_content (model self) parts (world s) in
  analyze_image self image question s
  = (Return
       match fst sent with
       | Return response =>
           match Response_text response with
           | Return t =>
               if truthy t then (true, t)
               else (false, "No response from model.")
           | Raise e => (false, "Error: " ++ str e)
           end
       | Raise e => (false, "Error: " ++ str e)
       end,
     {| world := snd sent;
        calls := calls s ++ [EvGenerate (model self) parts] |}).
Proof.
  intros parts sent.
  destruct sent as [[resp|e] w'] eqn:Hgen; cbn [fst snd].
  - destruct (Response_text resp) as [t|e] eqn:Htext.
    + exact (analyze_image_text self image question s resp t w' Hgen Htext).
    + exact (analyze_image_text_error self image question s resp e w'
                                      Hgen Htext).
  - exact (analyze_image_raise self image question s e w' Hgen).
Qed.

(** C9. The constructor either raises the exception that [configure] or
    [GenerativeModel] raised, and then there is no analyzer, or returns an
    analyzer whose model is the one [GenerativeModel] made for
    ["gemini-1.5-flash"]. *)
Theorem GeminiVisionAnalyzer_init_atomic (api_key : string) (s : State) :
  (forall (e : Exception) (w1 : World),
      genai_configure api_key (world s) = (Raise e, w1) ->
      GeminiVisionAnalyzer__init__ api_key s
      = (Raise e,
         {| world := w1;
            calls := calls s ++ [EvConfigure api_key]
                     ++ [EvLogError ("Gemini init failed: " ++ str e)] |}))
  /\
  (forall (e : Exception) (w1 w2 : World),
      genai_configure api_key (world s) = (Return tt, w1) ->
      genai_GenerativeModel "gemini-1.5-flash" w1 = (Raise e, w2) ->
      GeminiVisionAnalyzer__init__ api_key s
      = (Raise e,
         {| world := w2;
            calls := calls s ++ [EvConfigure api_key]
                     ++ [EvGenerativeModel "gemini-1.5-flash"]
                     ++ [EvLogError ("Gemini init failed: " ++ str e)] |}))
  /\
  (forall (m : Model) (w1 w2 : World),
      genai_configure api_key (world s) = (Return tt, w1) ->
      genai_GenerativeModel "gemini-1.5-flash" w1 = (Return m, w2) ->
      GeminiVisionAnalyzer__init__ api_key s
      = (Return {| model := m |},
         {| world := w2;
            calls := calls s ++ [EvConfigure api_key]
                     ++ [EvGenerativeModel "gemini-1.5-flash"]
                     ++ [EvLogInfo "Gemini model initialized."] |})).
Proof.
  unfold GeminiVisionAnalyzer__init__. run.
  split; [|split].
  - intros e w1 Hc. rewrite Hc. step.
    rewrite <- !app_assoc. reflexivity.
  - intros e w1 w2 Hc Hm. rewrite Hc. step. rewrite Hm. step.
    rewrite <- !app_assoc. reflexivity.
  - intros m w1 w2 Hc Hm. rewrite Hc. step. rewrite Hm. step.
    rewrite <- !app_assoc. reflexivity.
Qed.

End Properties.

(** ** The program on the simulated libraries *)

(** The stand-in for Pillow keeps Pillow's contract for [convert]. *)
Lemma sim_convert_gives_mode : convert_gives_mode Sim.libs.
Proof.
  intros i i' m w w' H. simpl in H. unfold Sim.convert in H.
  inversion H. reflexivity.
Qed.

(** Scenario A: no file. *)
Example scenario_no_file :
  validate_image (L := Sim.libs) None (Sim.start [])
  = (Return (false, None, "No file uploaded."), Sim.start []).
Proof. reflexivity. Qed.

(** Scenario B: a file of 12 MiB. *)
Example scenario_big_file :
  validate_image (L := Sim.libs) (Some Examples.big_file) (Sim.start [])
  = (Return (false, None, "File size exceeds 10MB."), Sim.start []).
Proof. reflexivity. Qed.

(** Scenario C: a picture with an alpha channel comes back as RGB. *)
Example scenario_alpha :
  validate_image (L := Sim.libs) (Some Examples.rgba_file) (Sim.start [])
  = (Return (true, Some Examples.rgb_image, "Image validated successfully."),
     mkState (L := Sim.libs) (Sim.mkWorld None [])
             [EvOpen Examples.rgba_file;
              EvConvert Examples.rgba_image "RGB"]).
Proof. reflexivity. Qed.

(** Scenario D: the service answers. *)
Example scenario_answer :
  analyze_image Examples.analyzer Examples.rgb_image "What is in this picture?"
                (Sim.start [Examples.reply "A red bicycle."])
  = (Return (true, "A red bicycle."),
     mkState (L := Sim.libs) (Sim.mkWorld None [])
             [EvGenerate
                (model Examples.analyzer)
                [PText "Please analyze the picture and answer the question: What is in this picture?";
                 PImage Examples.rgb_image]]).
Proof. reflexivity. Qed.

(** Scenario E: the service answers with an empty text. *)
Example scenario_empty_text :
  fst (analyze_image Examples.analyzer Examples.rgb_image
                     "What is in this picture?"
                     (Sim.start [Examples.reply ""]))
  = Return (false, "No response from model.").
Proof. reflexivity. Qed.

(** A response with no candidate: the property [text] raises, and the
    outcome is the one of an error. *)
Example scenario_no_candidate :
  fst (analyze_image Examples.analyzer Examples.rgb_image
                     "What is in this picture?"
                     (Sim.start [Return (Sim.mkResponse [])]))
  = Return (false, "Error: The response has no candidates.").
Proof. reflexivity. Qed.

(** An error whose [str] is empty: the string returned is the prefix alone,
    which is not empty. *)
Example scenario_error_without_message :
  fst (analyze_image Examples.analyzer Examples.rgb_image
                     "What is in this picture?"
                     (Sim.start [Raise (mkException "TimeoutError" "")]))
  = Return (false, "Error: ").
Proof. reflexivity. Qed.

(** Scenario F: the credential is refused when the client is set up. *)
Example scenario_bad_credential :
  GeminiVisionAnalyzer__init__ (L := Sim.libs) "" (Sim.start [])
  = (Raise (mkException "ValueError" "No API key provided."),
     mkState (L := Sim.libs) (Sim.mkWorld None [])
             [EvConfigure "";
              EvLogError "Gemini init failed: No API key provided."]).
Proof. reflexivity. Qed.

(** An empty question and a question of blanks are sent like any other. *)
Example scenario_blank_questions :
  snd (analyze_image Examples.analyzer Examples.rgb_image ""
                     (Sim.start [Examples.reply "A red bicycle."]))
  = mkState (L := Sim.libs) (Sim.mkWorld None [])
            [EvGenerate
               (model Examples.analyzer)
               [PText "Please analyze the picture and answer the question: ";
                PImage Examples.rgb_image]]
  /\
  snd (analyze_image Examples.analyzer Examples.rgb_image "   "
                     (Sim.start [Examples.reply "A red bicycle."]))
  = mkState (L := Sim.libs) (Sim.mkWorld None [])
            [EvGenerate
               (model Examples.analyzer)
               [PText "Please analyze the picture and answer the question:    ";
                PImage Examples.rgb_image]].
Proof. split; reflexivity. Qed.

(** A file that declares exactly [10 * 1024 * 1024] bytes is within the
    budget: it is opened. *)
Example scenario_exact_budget :
  validate_image (L := Sim.libs)
                 (Some (mkUploadedFile 10485760 [Byte.x00; Byte.x10; Byte.x10]))
                 (Sim.start [])
  = (Return (true, Some Examples.rgb_image, "Image validated successfully."),
     mkState (L := Sim.libs) (Sim.mkWorld None [])
             [EvOpen (mkUploadedFile 10485760 [Byte.x00; Byte.x10; Byte.x10])]).
Proof. reflexivity. Qed.

(** *** The theorems at concrete inputs *)

(** [validate_image_oversized] on the file of 12 MiB. *)
Lemma validate_image_oversized_witness :
  size Examples.big_file > 10 * 1024 * 1024 /\
  validate_image (L := Sim.libs) (Some Examples.big_file) (Sim.start [])
  = (Return (false, None, "File size exceeds 10MB."), Sim.start []).
Proof.
  split; [reflexivity|].
  apply (validate_image_oversized (L := Sim.libs)). reflexivity.
Defined.


(** [validate_image_normalizes] on a picture with an alpha channel. *)
Lemma validate_image_normalizes_witness :
  validate_image (L := Sim.libs) (Some Examples.rgba_file) (Sim.start [])
  = (Return (true, Some Examples.rgb_image, "Image validated successfully."),
     mkState (L := Sim.libs) (Sim.mkWorld None [])
             [EvOpen Examples.rgba_file; EvConvert Examples.rgba_image "RGB"])
  /\ @Image_mode Sim.libs Examples.rgb_image = "RGB".
Proof.
  refine (proj1 (validate_image_normalizes
                   (L := Sim.libs) Examples.rgba_file (Sim.start [])
                   Examples.rgba_image (Sim.mkWorld None [])
                   sim_convert_gives_mode _ _)
                _ Examples.rgb_image (Sim.mkWorld None []) _).
  - simpl. intro H. discriminate H.
  - reflexivity.
  - simpl. left. reflexivity.
  - reflexivity.
Defined.

(** [validate_image_RGB_unchanged] on a picture decoded as RGB. *)
Lemma validate_image_RGB_unchanged_witness :
  validate_image (L := Sim.libs) (Some Examples.rgb_file) (Sim.start [])
  = (Return (true, Some Examples.rgb_image, "Image validated successfully."),
     mkState (L := Sim.libs) (Sim.mkWorld None []) [EvOpen Examples.rgb_file]).
Proof.
  refine (proj1 (validate_image_RGB_unchanged
                   (L := Sim.libs) Examples.rgb_file (Sim.start [])
                   Examples.rgb_image (Sim.mkWorld None []) _ _ _)).
  - simpl. intro H. discriminate H.
  - reflexivity.
  - reflexivity.
Defined.

(** [analyze_image_remote_error] when the service is out of quota. *)
Lemma analyze_image_remote_error_witness :
  analyze_image Examples.analyzer Examples.rgb_image "What is in this picture?"
                (Sim.start [Raise Examples.quota_error])
  = (Return (false, "Error: 429 Quota exceeded."),
     mkState (L := Sim.libs) (Sim.mkWorld None [])
             [EvGenerate (model Examples.analyzer)
                         (request Examples.rgb_image "What is in this picture?")])
  /\ "Error: 429 Quota exceeded." <> "".
Proof.
  apply (analyze_image_remote_error
           Examples.analyzer Examples.rgb_image "What is in this picture?"
           (Sim.start [Raise Examples.quota_error])
           Examples.quota_error (Sim.mkWorld None [])).
  reflexivity.
Defined.

(** [analyze_image_response] on an answer of the service. *)
Lemma analyze_image_response_witness :
  analyze_image Examples.analyzer Examples.rgb_image "What is in this picture?"
                (Sim.start [Examples.reply "A red bicycle."])
  = (Return (true, "A red bicycle."),
     mkState (L := Sim.libs) (Sim.mkWorld None [])
             [EvGenerate (model Examples.analyzer)
                         (request Examples.rgb_image "What is in this picture?")]).
Proof.
  refine (proj1 (proj1 (analyze_image_response
                          Examples.analyzer Examples.rgb_image
                          "What is in this picture?"
                          (Sim.start [Examples.reply "A red bicycle."]))
                       (Sim.mkResponse ["A red bicycle."]) "A red bicycle."
                       (Sim.mkWorld None []) _ _) _).
  - reflexivity.
  - reflexivity.
  - discriminate.
Defined.

(** [GeminiVisionAnalyzer_init_atomic] on a refused and on an accepted
    credential. *)
Lemma GeminiVisionAnalyzer_init_atomic_witness :
  GeminiVisionAnalyzer__init__ (L := Sim.libs) "" (Sim.start [])
  = (Raise (mkException "ValueError" "No API key provided."),
     mkState (L := Sim.libs) (Sim.mkWorld None [])
             [EvConfigure "";
              EvLogError "Gemini init failed: No API key provided."])
  /\
  GeminiVisionAnalyzer__init__ (L := Sim.libs) "secret" (Sim.start [])
  = (Return (mkGeminiVisionAnalyzer (L := Sim.libs) "gemini-1.5-flash"),
     mkState (L := Sim.libs) (Sim.mkWorld (Some "secret") [])
             [EvConfigure "secret"; EvGenerativeModel "gemini-1.5-flash";
              EvLogInfo "Gemini model initialized."]).
Proof.
  split.
  - refine (proj1 (GeminiVisionAnalyzer_init_atomic
                     (L := Sim.libs) "" (Sim.start []))
                  (mkException "ValueError" "No API key provided.")
                  (Sim.mkWorld None []) _).
    reflexivity.
  - refine (proj2 (proj2 (GeminiVisionAnalyzer_init_atomic
                            (L := Sim.libs) "secret" (Sim.start [])))
                  "gemini-1.5-flash" (Sim.mkWorld (Some "secret") [])
                  (Sim.mkWorld (Some "secret") []) _ _).
    + reflexivity.
    + reflexivity.
Defined.

(** *** Where the specification says more than the code does *)

(** C1 as the specification has it fails on a grey-scale picture.  The file
    is within the budget and decodes, to an image of mode L (Pillow's mode
    for 8-bit grey-scale); L is not one of RGBA, LA and P, so the image is
    returned as it was decoded, without a call of [convert], and its mode is
    L, not RGB. *)
Lemma validate_image_gray_stays_gray :
  size Examples.gray_file <= 10 * 1024 * 1024 /\
  @Image_open Sim.libs Examples.gray_file (Sim.mkWorld None [])
  = (Return Examples.gray_image, Sim.mkWorld None []) /\
  validate_image (L := Sim.libs) (Some Examples.gray_file) (Sim.start [])
  = (Return (true, Some Examples.gray_image, "Image validated successfully."),
     mkState (L := Sim.libs) (Sim.mkWorld None []) [EvOpen Examples.gray_file]) /\
  @Image_mode Sim.libs Examples.gray_image = "L" /\
  @Image_mode Sim.libs Examples.gray_image <> "RGB".
Proof.
  split; [simpl; intro H; discriminate H|].
  split; [reflexivity|].
  split; [reflexivity|].
  split; [reflexivity|].
  simpl. discriminate.
Qed.

(** ** More about [validate_image] and the analyzer *)

Section Traces.

Context {L : Libraries}.

Ltac step := cbn beta iota zeta delta [world calls].

Ltac run :=
  unfold try_except, bind, call, attr, ret, raise, logger_info, logger_error;
  step.

(** Every way through [validate_image] on a handle, with the calls it
    makes. *)
Lemma validate_image_trace (f : UploadedFile) (s : State) :
  (size f > 10 * 1024 * 1024 /\
   validate_image (Some f) s
   = (Return (false, None, "File size exceeds 10MB."), s))
  \/
  (size f <= 10 * 1024 * 1024 /\
   exists (e : Exception) (w : World),
     validate_image (Some f) s
     = (Return (false, None, "Invalid image file: " ++ str e),
        {| world := w; calls := calls s ++ [EvOpen f] |}))
  \/
  (size f <= 10 * 1024 * 1024 /\
   exists (img : Image) (w : World),
     Image_open f (world s) = (Return img, w) /\
     str_in (Image_mode img) ["RGBA"; "LA"; "P"] = false /\
     validate_image (Some f) s
     = (Return (true, Some img, "Image validated successfully."),
        {| world := w; calls := calls s ++ [EvOpen f] |}))
  \/
  (size f <= 10 * 1024 * 1024 /\
   exists (img : Image) (w1 : World),
     Image_open f (world s) = (Return img, w1) /\
     str_in (Image_mode img) ["RGBA"; "LA"; "P"] = true /\
     ((exists (e : Exception) (w2 : World),
          validate_image (Some f) s
          = (Return (false, None, "Invalid image file: " ++ str e),
             {| world := w2;
                calls := calls s ++ [EvOpen f; EvConvert img "RGB"] |}))
      \/
      (exists (img' : Image) (w2 : World),
          Image_convert img "RGB" w1 = (Return img', w2) /\
          validate_image (Some f) s
          = (Return (true, Some img', "Image validated successfully."),
             {| world := w2;
                calls := calls s ++ [EvOpen f; EvConvert img "RGB"] |})))).
Proof.
  unfold validate_image. run.
  destruct (size f >? 10 * 1024 * 1024) eqn:Hsize.
  - left. split; [|reflexivity].
    rewrite Z.gtb_ltb in Hsize. apply Z.ltb_lt in Hsize. lia.
  - right.
    assert (Hle : size f <= 10 * 1024 * 1024)
      by (rewrite Z.gtb_ltb in Hsize; apply Z.ltb_ge in Hsize; lia).
    destruct (Image_open f (world s)) as [[img|e] w1]; step.
    + right.
      destruct (str_in (Image_mode img) ["RGBA"; "LA"; "P"]) eqn:Hmode; step.
      * right. split; [exact Hle|]. exists img, w1.
        split; [reflexivity|]. split; [exact Hmode|].
        destruct (Image_convert img "RGB" w1) as [[img'|e] w2]; step;
          rewrite <- app_assoc.
        { right. exists img', w2. split; reflexivity. }
        { left. exists e, w2. reflexivity. }
      * left. split; [exact Hle|]. exists img, w1.
        split; [reflexivity|]. split; [exact Hmode|]. reflexivity.
    + left. split; [exact Hle|]. exists e, w1. reflexivity.
Qed.

(** What the states before and after [validate_image] have in common, and
    the two shapes of its result. *)
Lemma validate_image_summary
      (uploaded_file : option UploadedFile) (s : State) :
  exists (new : list Event) (s' : State),
    calls s' = (calls s ++ new)%list /\
    (forall m parts, ~ In (EvGenerate m parts) new) /\
    (forall k, ~ In (EvConfigure k) new) /\
    ((exists msg,
         validate_image uploaded_file s = (Return (false, None, msg), s'))
     \/
     (exists f img,
         uploaded_file = Some f /\
         size f <= 10 * 1024 * 1024 /\
         In (EvOpen f) new /\
         validate_image uploaded_file s
         = (Return (true, Some img, "Image validated successfully."), s'))).
Proof.
  destruct uploaded_file as [f|].
  - destruct (validate_image_trace f s)
      as [[_ H] | [[_ (e & w & H)] | [[Hle (img & w & _ & _ & H)]
         | [Hle (img & w1 & _ & _ & [(e & w2 & H) | (img' & w2 & _ & H)])]]]];
      rewrite H.
    + exists [], s. rewrite app_nil_r.
      repeat split; try (intros; intros []). left. eauto.
    + eexists [EvOpen f], (mkState _ _). split; [simpl; reflexivity|].
      repeat split;
        try (intros; simpl; intros [Hc|[]]; discriminate Hc). left. eauto.
    + eexists [EvOpen f], (mkState _ _). split; [simpl; reflexivity|].
      repeat split;
        try (intros; simpl; intros [Hc|[]]; discriminate Hc).
      right. exists f, img. repeat split; simpl; auto.
    + eexists [EvOpen f; EvConvert img "RGB"], (mkState _ _). split; [simpl; reflexivity|].
      repeat split;
        try (intros; simpl; intros [Hc|[Hc|[]]]; discriminate Hc). left. eauto.
    + eexists [EvOpen f; EvConvert img "RGB"], (mkState _ _). split; [simpl; reflexivity|].
      repeat split;
        try (intros; simpl; intros [Hc|[Hc|[]]]; discriminate Hc).
      right. exists f, img'. repeat split; simpl; auto.
  - exists [], s. rewrite app_nil_r.
    repeat split; try (intros; intros []). left. eexists. reflexivity.
Qed.

(** The constructor: its outcome, and the calls it makes; [generate_content]
    is not among them. *)
Lemma init_summary (api_key : string) (s : State) :
  exists (r : outcome GeminiVisionAnalyzer) (rest : list Event) (s' : State),
    GeminiVisionAnalyzer__init__ api_key s = (r, s') /\
    calls s' = (calls s ++ EvConfigure api_key :: rest)%list /\
    (forall m parts, ~ In (EvGenerate m parts) rest).
Proof.
  unfold GeminiVisionAnalyzer__init__. run.
  destruct (genai_configure api_key (world s)) as [[[]|e] w1]; step.
  - destruct (genai_GenerativeModel "gemini-1.5-flash" w1) as [[m|e] w2]; step.
    + do 3 eexists. split; [reflexivity|]. step. rewrite <- !app_assoc.
      split; [reflexivity|].
      intros; simpl; intros [Hc|[Hc|[]]]; discriminate Hc.
    + do 3 eexists. split; [reflexivity|]. step. rewrite <- !app_assoc.
      split; [reflexivity|].
      intros; simpl; intros [Hc|[Hc|[]]]; discriminate Hc.
  - do 3 eexists. split; [reflexivity|]. step. rewrite <- !app_assoc.
    split; [reflexivity|].
    intros; simpl; intros [Hc|[]]; discriminate Hc.
Qed.

End Traces.

(** ** The page: properties *)

Section PageProperties.

Context {L : Libraries} {F : Frontend L}.

Ltac ui :=
  unfold ui_try_except, ui_bind, lift, st_markdown, st_spinner, ui_ret,
    ui_raise, show_image;
  cbn beta iota zeta delta [backend shown world calls negb].

(** The handler when the upload is refused. *)
Lemma main_analyze_invalid
      (api_key : string) (f : UploadedFile) (question : string) (u : Session)
      (oimg : option Image) (msg : string) (s1 : State) :
  truthy api_key = true ->
  truthy (str_strip question) = true ->
  validate_image (Some f) (backend u) = (Return (false, oimg, msg), s1) ->
  main_analyze true api_key (Some f) question u
  = (Return tt,
     {| backend := s1; shown := shown u ++ [StMarkdown (error_box msg)] |}).
Proof.
  intros Hk Hq Hv. unfold main_analyze. rewrite Hk, Hq. ui.
  rewrite Hv. reflexivity.
Qed.

(** The handler when the constructor raises. *)
Lemma main_analyze_init_raise
      (api_key : string) (f : UploadedFile) (question : string) (u : Session)
      (oimg : option Image) (msg : string) (s1 s2 : State) (e : Exception) :
  truthy api_key = true ->
  truthy (str_strip question) = true ->
  validate_image (Some f) (backend u) = (Return (true, oimg, msg), s1) ->
  GeminiVisionAnalyzer__init__ api_key s1 = (Raise e, s2) ->
  main_analyze true api_key (Some f) question u
  = (Return tt,
     {| backend := s2;
        shown := shown u
                 ++ [StSpinner "Initializing Gemini...";
                     StMarkdown (error_box ("🚫 Error: " ++ str e))] |}).
Proof.
  intros Hk Hq Hv Hi. unfold main_analyze. rewrite Hk, Hq. ui.
  rewrite Hv. ui. rewrite Hi. ui. rewrite <- app_assoc. reflexivity.
Qed.

(** The handler when [analyze_image] has returned. *)
Lemma main_analyze_result
      (api_key : string) (f : UploadedFile) (question : string) (u : Session)
      (img : Image) (msg : string) (s1 s2 s3 : State)
      (a : GeminiVisionAnalyzer) (flag : bool) (result : string) :
  truthy api_key = true ->
  truthy (str_strip question) = true ->
  validate_image (Some f) (backend u) = (Return (true, Some img, msg), s1) ->
  GeminiVisionAnalyzer__init__ api_key s1 = (Return a, s2) ->
  analyze_image a img question s2 = (Return (flag, result), s3) ->
  main_analyze true api_key (Some f) question u
  = (Return tt,
     {| backend := s3;
        shown := shown u
                 ++ [StSpinner "Initializing Gemini...";
                     StSpinner "Analyzing image..."]
                 ++ (if flag
                     then [StMarkdown "<div class='section-header'>📋 Result</div>";
                           StMarkdown (success_box result)]
                     else [StMarkdown (error_box result)]) |}).
Proof.
  intros Hk Hq Hv Hi Ha. unfold main_analyze. rewrite Hk, Hq. ui.
  rewrite Hv. ui. rewrite Hi. ui. rewrite Ha. ui.
  destruct flag; ui; rewrite <- !app_assoc; reflexivity.
Qed.

(** The handler on an input that is missing. *)
Lemma main_analyze_refuses
      (api_key : string) (uploaded_file : option UploadedFile)
      (question : string) (u : Session) :
  truthy api_key = false \/ uploaded_file = None
  \/ truthy (str_strip question) = false ->
  main_analyze true api_key uploaded_file question u
  = (Return tt,
     {| backend := backend u;
        shown := shown u
                 ++ [StMarkdown
                       (error_box
                          (if negb (truthy api_key)
                           then "❗ Please provide your API key."
                           else match uploaded_file with
                                | None => "❗ Please upload an image."
                                | Some _ => "❗ Please enter a question."
                                end))] |}).
Proof.
  intro H. unfold main_analyze.
  destruct (truthy api_key); [|reflexivity].
  destruct uploaded_file as [f|]; [|reflexivity].
  destruct (truthy (str_strip question)); [|reflexivity].
  destruct H as [H|[H|H]]; discriminate H.
Qed.

(** Every run of the handler: it returns; what it adds to the page ends
    with one box; and a request reaches the service only past the three
    tests and a successful validation. *)
Lemma main_analyze_summary
      (api_key : string) (uploaded_file : option UploadedFile)
      (question : string) (u : Session) :
  exists (u' : Session) (new : list Event) (pre : list Render) (body : string),
    main_analyze true api_key uploaded_file question u = (Return tt, u') /\
    calls (backend u') = (calls (backend u) ++ new)%list /\
    shown u' = (shown u ++ pre ++ [StMarkdown body])%list /\
    is_box body /\
    (forall m parts,
        In (EvGenerate m parts) new ->
        truthy api_key = true /\
        truthy (str_strip question) = true /\
        exists f img msg s1,
          uploaded_file = Some f /\
          size f <= 10 * 1024 * 1024 /\
          validate_image (Some f) (backend u)
          = (Return (true, Some img, msg), s1) /\
          In (EvOpen f) new /\
          In (EvConfigure api_key) new /\
          parts = request img question).
Proof.
  destruct (truthy api_key) eqn:Hk;
    [destruct uploaded_file as [f|];
     [destruct (truthy (str_strip question)) eqn:Hq|]|].
  - destruct (validate_image_summary (Some f) (backend u))
      as (newv & s1 & Hc1 & Hng1 & Hnc1
          & [(msg & Hv) | (f' & img & Hf & Hle & Hopen & Hv)]).
    + rewrite (main_analyze_invalid _ _ _ _ _ _ _ Hk Hq Hv).
      exists (mkSession s1 (shown u ++ [StMarkdown (error_box msg)])),
        newv, [], (error_box msg).
      split; [reflexivity|]. split; [exact Hc1|]. split; [reflexivity|].
      split; [left; eauto|].
      intros m parts Hin. exfalso. exact (Hng1 m parts Hin).
    + injection Hf as <-.
      destruct (init_summary api_key s1) as (r & rest & s2 & Hi & Hc2 & Hng2).
      destruct r as [a|e].
      * destruct (analyze_image_returns a img question s2)
          as (flag & result & w3 & Ha).
        rewrite (main_analyze_result _ _ _ _ _ _ _ _ _ _ _ _
                                     Hk Hq Hv Hi Ha).
        eexists (mkSession _ _),
          (newv ++ (EvConfigure api_key :: rest)
                ++ [EvGenerate (model a) (request img question)])%list,
          ([StSpinner "Initializing Gemini..."; StSpinner "Analyzing image..."]
             ++ (if flag
                 then [StMarkdown "<div class='section-header'>📋 Result</div>"]
                 else []))%list,
          (if flag then success_box result else error_box result).
        split; [reflexivity|]. simpl backend; simpl shown; simpl calls.
        split; [rewrite Hc2, Hc1, <- !app_assoc; reflexivity|].
        split; [destruct flag; reflexivity|].
        split; [destruct flag; [right|left]; eauto|].
        intros m parts Hin.
        apply in_app_or in Hin. destruct Hin as [Hin|Hin];
          [exfalso; exact (Hng1 m parts Hin)|].
        apply in_app_or in Hin. destruct Hin as [Hin|Hin].
        { destruct Hin as [Hc|Hin]; [discriminate Hc|].
          exfalso. exact (Hng2 m parts Hin). }
        destruct Hin as [Heq|[]]. injection Heq as _ <-.
        split; [reflexivity|]. split; [reflexivity|].
        exists f, img, "Image validated successfully.", s1.
        repeat split; auto.
        -- apply in_or_app. left. exact Hopen.
        -- apply in_or_app. right. apply in_or_app. left. left. reflexivity.
      * rewrite (main_analyze_init_raise _ _ _ _ _ _ _ _ _ Hk Hq Hv Hi).
        eexists (mkSession _ _),
          (newv ++ EvConfigure api_key :: rest)%list,
          [StSpinner "Initializing Gemini..."],
          (error_box ("🚫 Error: " ++ str e)).
        split; [reflexivity|]. simpl backend; simpl shown.
        split; [rewrite Hc2, Hc1, <- !app_assoc; reflexivity|].
        split; [reflexivity|]. split; [left; eauto|].
        intros m parts Hin.
        apply in_app_or in Hin. destruct Hin as [Hin|Hin];
          [exfalso; exact (Hng1 m parts Hin)|].
        destruct Hin as [Hc|Hin]; [discriminate Hc|].
        exfalso. exact (Hng2 m parts Hin).
  - rewrite (main_analyze_refuses api_key (Some f) question u)
      by (right; right; exact Hq).
    eexists (mkSession _ _), [], [], _.
    split; [reflexivity|]. simpl backend; simpl shown.
    split; [rewrite app_nil_r; reflexivity|]. split; [reflexivity|].
    split; [left; eauto|]. intros m parts [].
  - rewrite (main_analyze_refuses api_key None question u)
      by (right; left; reflexivity).
    eexists (mkSession _ _), [], [], _.
    split; [reflexivity|]. simpl backend; simpl shown.
    split; [rewrite app_nil_r; reflexivity|]. split; [reflexivity|].
    split; [left; eauto|]. intros m parts [].
  - rewrite (main_analyze_refuses api_key uploaded_file question u)
      by (left; exact Hk).
    eexists (mkSession _ _), [], [], _.
    split; [reflexivity|]. simpl backend; simpl shown.
    split; [rewrite app_nil_r; reflexivity|]. split; [reflexivity|].
    split; [left; eauto|]. intros m parts [].
Qed.

(** X1. As long as the calls into the libraries return or raise an
    instance of [Exception] (what [outcome] holds, and what
    [except Exception] catches; a [KeyboardInterrupt] or another
    [BaseException] is not caught by the code and is outside this model),
    the handler of the Analyze button returns: every such exception is
    caught in [validate_image], in [analyze_image] or by the handler.  When
    the button was not pressed it does nothing, and when it was, the last
    thing it puts on the page is one error box or one success box. *)
Theorem main_analyze_always_returns
        (analyze : bool) (api_key : string)
        (uploaded_file : option UploadedFile) (question : string)
        (u : Session) :
  exists u' : Session,
    main_analyze analyze api_key uploaded_file question u = (Return tt, u') /\
    (analyze = false -> u' = u) /\
    (analyze = true ->
     exists (pre : list Render) (body : string),
       shown u' = (shown u ++ pre ++ [StMarkdown body])%list /\ is_box body).
Proof.
  destruct analyze.
  - destruct (main_analyze_summary api_key uploaded_file question u)
      as (u' & new & pre & body & Hrun & _ & Hshown & Hbox & _).
    exists u'. split; [exact Hrun|]. split; [discriminate|].
    intros _. exists pre, body. split; assumption.
  - exists u. split; [reflexivity|]. split; [reflexivity | discriminate].
Qed.

(** X2. With an empty key, no upload or a question that is empty once
    stripped, the handler shows one error box and calls no library (the file
    is not opened, the service is not configured); the key is tested first,
    then the upload, then the question. *)
Theorem main_analyze_missing_input
        (api_key : string) (uploaded_file : option UploadedFile)
        (question : string) (u : Session) :
  api_key = "" \/ uploaded_file = None \/ str_strip question = "" ->
  main_analyze true api_key uploaded_file question u
  = (Return tt,
     {| backend := backend u;
        shown := shown u
                 ++ [StMarkdown
                       (error_box
                          (if String.eqb api_key ""
                           then "❗ Please provide your API key."
                           else match uploaded_file with
                                | None => "❗ Please upload an image."
                                | Some _ => "❗ Please enter a question."
                                end))] |}).
Proof.
  intro H.
  rewrite (main_analyze_refuses api_key uploaded_file question u).
  - destruct api_key; reflexivity.
  - destruct H as [->|[->|H]]; [left; reflexivity | right; left; reflexivity |].
    right; right. rewrite H. reflexivity.
Qed.

(** X3. A request is sent to the service only when the button was pressed,
    the key is not empty, the question is not empty once stripped, and a file
    within the budget was uploaded and opened; the service was configured
    with the key as typed, and the request is the instruction followed by
    the question as typed (not stripped), with an image. *)
Theorem main_analyze_requests
        (analyze : bool) (api_key : string)
        (uploaded_file : option UploadedFile) (question : string)
        (u : Session) :
  exists new : list Event,
    calls (backend (snd (main_analyze analyze api_key uploaded_file question u)))
    = (calls (backend u) ++ new)%list /\
    (forall m parts,
        In (EvGenerate m parts) new ->
        analyze = true /\
        api_key <> "" /\
        str_strip question <> "" /\
        exists (f : UploadedFile) (img : Image),
          uploaded_file = Some f /\
          size f <= 10 * 1024 * 1024 /\
          In (EvOpen f) new /\
          In (EvConfigure api_key) new /\
          parts
          = [PText ("Please analyze the picture and answer the question: "
                    ++ question);
             PImage img]).
Proof.
  destruct analyze.
  - destruct (main_analyze_summary api_key uploaded_file question u)
      as (u' & new & pre & body & Hrun & Hcalls & _ & _ & Hgen).
    exists new. rewrite Hrun. split; [exact Hcalls|].
    intros m parts Hin.
    destruct (Hgen m parts Hin)
      as (Hk & Hq & f & img & msg & s1 & Hf & Hle & _ & Hopen & Hconf & Hparts).
    split; [reflexivity|].
    split; [apply truthy_true_iff; exact Hk|].
    split; [apply truthy_true_iff; exact Hq|].
    exists f, img. repeat split; assumption.
  - exists []. split; [simpl; rewrite app_nil_r; reflexivity|].
    intros m parts [].
Qed.

(** X4. With Pillow's contract for [convert], the image of every request
    that the handler sends to the service has a mode that is not RGBA, LA
    or P. *)
Theorem main_analyze_sends_normalized
        (analyze : bool) (api_key : string)
        (uploaded_file : option UploadedFile) (question : string)
        (u : Session) :
  convert_gives_mode L ->
  exists new : list Event,
    calls (backend (snd (main_analyze analyze api_key uploaded_file question u)))
    = (calls (backend u) ++ new)%list /\
    (forall m parts,
        In (EvGenerate m parts) new ->
        exists img : Image,
          parts
          = [PText ("Please analyze the picture and answer the question: "
                    ++ question);
             PImage img] /\
          str_in (Image_mode img) ["RGBA"; "LA"; "P"] = false).
Proof.
  intro Hconv. destruct analyze.
  - destruct (main_analyze_summary api_key uploaded_file question u)
      as (u' & new & pre & body & Hrun & Hcalls & _ & _ & Hgen).
    exists new. rewrite Hrun. split; [exact Hcalls|].
    intros m parts Hin.
    destruct (Hgen m parts Hin)
      as (_ & _ & f & img & msg & s1 & _ & _ & Hv & _ & _ & Hparts).
    exists img. split; [exact Hparts|].
    exact (validate_image_valid_mode f (backend u) s1 img msg Hconv Hv).
  - exists []. split; [simpl; rewrite app_nil_r; reflexivity|].
    intros m parts [].
Qed.

(** X5. When the upload is valid and the constructor of the analyzer
    raises [e], the handler catches it: the page gets the spinner of the
    initialisation and an error box with [str e], and no request is sent to
    the service. *)
Theorem main_analyze_init_failure
        (api_key : string) (f : UploadedFile) (question : string)
        (u : Session) (oimg : option Image) (msg : string)
        (s1 s2 : State) (e : Exception) :
  api_key <> "" ->
  str_strip question <> "" ->
  validate_image (Some f) (backend u) = (Return (true, oimg, msg), s1) ->
  GeminiVisionAnalyzer__init__ api_key s1 = (Raise e, s2) ->
  main_analyze true api_key (Some f) question u
  = (Return tt,
     {| backend := s2;
        shown := shown u
                 ++ [StSpinner "Initializing Gemini...";
                     StMarkdown (error_box ("🚫 Error: " ++ str e))] |})
  /\
  (forall m parts,
      In (EvGenerate m parts) (calls s2) ->
      In (EvGenerate m parts) (calls (backend u))).
Proof.
  intros Hk Hq Hv Hi.
  apply truthy_true_iff in Hk. apply truthy_true_iff in Hq.
  split.
  - exact (main_analyze_init_raise _ _ _ _ _ _ _ _ _ Hk Hq Hv Hi).
  - intros m parts Hin.
    destruct (validate_image_summary (Some f) (backend u))
      as (newv & s1' & Hc1 & Hng1 & _ & Hcase).
    assert (s1' = s1) as ->.
    { destruct Hcase as [(msg' & Hv') | (f' & img & _ & _ & _ & Hv')];
        rewrite Hv in Hv'; congruence. }
    destruct (init_summary api_key s1) as (r & rest & s2' & Hi' & Hc2 & Hng2).
    rewrite Hi in Hi'. injection Hi' as <- <-.
    rewrite Hc2, Hc1 in Hin.
    apply in_app_or in Hin. destruct Hin as [Hin|Hin].
    + apply in_app_or in Hin. destruct Hin as [Hin|Hin]; [exact Hin|].
      exfalso. exact (Hng1 m parts Hin).
    + destruct Hin as [Hc|Hin]; [discriminate Hc|].
      exfalso. exact (Hng2 m parts Hin).
Qed.

(** X6. When the upload is valid, the analyzer is built and the service
    returns a response whose text [t] is not empty, the page gets the two
    spinners, the result header and a success box with [t]. *)
Theorem main_analyze_shows_answer
        (api_key : string) (f : UploadedFile) (question : string)
        (u : Session) (img : Image) (msg : string) (s1 s2 : State)
        (a : GeminiVisionAnalyzer) (resp : Response) (t : string)
        (w3 : World) :
  api_key <> "" ->
  str_strip question <> "" ->
  validate_image (Some f) (backend u) = (Return (true, Some img, msg), s1) ->
  GeminiVisionAnalyzer__init__ api_key s1 = (Return a, s2) ->
  generate_content (model a) (request img question) (world s2)
  = (Return resp, w3) ->
  Response_text resp = Return t ->
  t <> "" ->
  main_analyze true api_key (Some f) question u
  = (Return tt,
     {| backend :=
          {| world := w3;
             calls := calls s2
                      ++ [EvGenerate (model a) (request img question)] |};
        shown := shown u
                 ++ [StSpinner "Initializing Gemini...";
                     StSpinner "Analyzing image...";
                     StMarkdown "<div class='section-header'>📋 Result</div>";
                     StMarkdown (success_box t)] |}).
Proof.
  intros Hk Hq Hv Hi Hgen Htext Ht.
  apply truthy_true_iff in Hk. apply truthy_true_iff in Hq.
  pose proof (analyze_image_text a img question s2 resp t w3 Hgen Htext) as Ha.
  apply truthy_true_iff in Ht. rewrite Ht in Ha.
  rewrite (main_analyze_result _ _ _ _ _ _ _ _ _ _ _ _ Hk Hq Hv Hi Ha).
  reflexivity.
Qed.

(** X7. When the upload is valid, the analyzer is built and the call of the
    service raises [e], the page gets the two spinners and an error box with
    ["Error: " ++ str e], the text that [analyze_image] returned. *)
Theorem main_analyze_shows_remote_error
        (api_key : string) (f : UploadedFile) (question : string)
        (u : Session) (img : Image) (msg : string) (s1 s2 : State)
        (a : GeminiVisionAnalyzer) (e : Exception) (w3 : World) :
  api_key <> "" ->
  str_strip question <> "" ->
  validate_image (Some f) (backend u) = (Return (true, Some img, msg), s1) ->
  GeminiVisionAnalyzer__init__ api_key s1 = (Return a, s2) ->
  generate_content (model a) (request img question) (world s2)
  = (Raise e, w3) ->
  main_analyze true api_key (Some f) question u
  = (Return tt,
     {| backend :=
          {| world := w3;
             calls := calls s2
                      ++ [EvGenerate (model a) (request img question)] |};
        shown := shown u
                 ++ [StSpinner "Initializing Gemini...";
                     StSpinner "Analyzing image...";
                     StMarkdown (error_box ("Error: " ++ str e))] |}).
Proof.
  intros Hk Hq Hv Hi Hgen.
  apply truthy_true_iff in Hk. apply truthy_true_iff in Hq.
  pose proof (analyze_image_raise a img question s2 e w3 Hgen) as Ha.
  rewrite (main_analyze_result _ _ _ _ _ _ _ _ _ _ _ _ Hk Hq Hv Hi Ha).
  reflexivity.
Qed.


(** X9. The upload column does not catch an exception of [st.image]: when
    the upload is valid and showing the picture raises [e], [e] leaves the
    column, and the success box is not shown. *)
Theorem main_upload_image_failure
        (f : UploadedFile) (u : Session) (img : Image) (msg : string)
        (s1 : State) (e : Exception) (w2 : World) :
  validate_image (Some f) (backend u) = (Return (true, Some img, msg), s1) ->
  st_image img "Uploaded Image" (world s1) = (Raise e, w2) ->
  main_upload (Some f) u
  = (Raise e,
     {| backend := {| world := w2; calls := calls s1 |};
        shown := shown u ++ [StImage img "Uploaded Image"] |}).
Proof.
  intros Hv Hst. unfold main_upload. ui. rewrite Hv. ui. rewrite Hst.
  reflexivity.
Qed.

End PageProperties.

(** ** More properties of [validate_image] and [analyze_image] *)

Section CoreProperties.

Context {L : Libraries}.

(** X10. [validate_image] on a handle returns, and the state it leaves is
    the one its library calls left.  Over the budget it calls nothing.
    Within the budget it calls [Image.open] on the handle; when that raises,
    or returns an image whose mode is not RGBA, LA or P, it calls nothing
    more; when that returns an image whose mode is RGBA, LA or P, it calls
    [convert("RGB")] on that image, in the world [Image.open] left, and
    nothing more. *)
Theorem validate_image_calls (f : UploadedFile) (s : State) :
  exists (r : bool * option Image * string) (s' : State),
    validate_image (Some f) s = (Return r, s') /\
    (size f > 10 * 1024 * 1024 -> s' = s) /\
    (size f <= 10 * 1024 * 1024 ->
     forall (e : Exception) (w1 : World),
       Image_open f (world s) = (Raise e, w1) ->
       s' = {| world := w1; calls := calls s ++ [EvOpen f] |}) /\
    (size f <= 10 * 1024 * 1024 ->
     forall (img : Image) (w1 : World),
       Image_open f (world s) = (Return img, w1) ->
       ~ In (Image_mode img) ["RGBA"; "LA"; "P"] ->
       s' = {| world := w1; calls := calls s ++ [EvOpen f] |}) /\
    (size f <= 10 * 1024 * 1024 ->
     forall (img : Image) (w1 : World),
       Image_open f (world s) = (Return img, w1) ->
       In (Image_mode img) ["RGBA"; "LA"; "P"] ->
       s' = {| world := snd (Image_convert img "RGB" w1);
               calls := calls s ++ [EvOpen f; EvConvert img "RGB"] |}).
Proof.
  unfold validate_image, try_except, bind, call, ret.
  cbn beta iota zeta delta [world calls].
  destruct (size f >? 10 * 1024 * 1024) eqn:Hsize.
  - do 2 eexists. split; [reflexivity|].
    rewrite Z.gtb_ltb in Hsize. apply Z.ltb_lt in Hsize.
    split; [reflexivity|].
    repeat split; intro Hle; exfalso; lia.
  - rewrite Z.gtb_ltb in Hsize. apply Z.ltb_ge in Hsize.
    destruct (Image_open f (world s)) as [[img|e] w1];
      cbn beta iota zeta delta [world calls].
    + destruct (str_in (Image_mode img) ["RGBA"; "LA"; "P"]) eqn:Hmode;
        cbn beta iota zeta delta [world calls].
      * destruct (Image_convert img "RGB" w1) as [[img'|e] w2] eqn:Hconv;
          cbn beta iota zeta delta [world calls];
          (do 2 eexists; split; [reflexivity|];
           split; [intro Hgt; exfalso; lia|];
           split; [intros _ e0 w0 H; discriminate H|];
           split;
           [ intros _ img0 w0 H Hnin; injection H as <- <-;
             exfalso; apply Hnin; apply str_in_spec; exact Hmode
           | intros _ img0 w0 H _; injection H as <- <-;
             rewrite Hconv, <- app_assoc; reflexivity ]).
      * do 2 eexists. split; [reflexivity|].
        split; [intro Hgt; exfalso; lia|].
        split; [intros _ e0 w0 H; discriminate H|].
        split.
        -- intros _ img0 w0 H _. injection H as <- <-. reflexivity.
        -- intros _ img0 w0 H Hin. injection H as <- <-.
           apply str_in_spec in Hin. rewrite Hmode in Hin. discriminate Hin.
    + do 2 eexists. split; [reflexivity|].
      split; [intro Hgt; exfalso; lia|].
      split; [intros _ e0 w0 H; injection H as <- <-; reflexivity|].
      split; intros _ img0 w0 H; discriminate H.
Qed.

(** X11. A response whose [text] property raises [e] is reported as an
    error of the call, [(False, "Error: " ++ str e)], and not as
    ["No response from model."]. *)
Theorem analyze_image_text_raises
        (self : GeminiVisionAnalyzer) (image : Image) (question : string)
        (s : State) (resp : Response) (e : Exception) (w' : World) :
  generate_content (model self) (request image question) (world s)
  = (Return resp, w') ->
  Response_text resp = Raise e ->
  analyze_image self image question s
  = (Return (false, "Error: " ++ str e),
     {| world := w';
        calls := calls s ++ [EvGenerate (model self) (request image question)] |})
  /\ "Error: " ++ str e <> "No response from model.".
Proof.
  intros Hgen Htext. split.
  - exact (analyze_image_text_error self image question s resp e w' Hgen Htext).
  - simpl. discriminate.
Qed.

(** X12. As long as the remote call and the [text] property return or
    raise an instance of [Exception] (what [outcome] holds, and what
    [except Exception] catches; a [KeyboardInterrupt] or another
    [BaseException] is not caught by the code and is outside this model),
    [analyze_image] returns a pair, and the string of the pair is never
    empty. *)
Theorem analyze_image_message_nonempty
        (self : GeminiVisionAnalyzer) (image : Image) (question : string)
        (s : State) :
  exists (flag : bool) (msg : string) (s' : State),
    analyze_image self image question s = (Return (flag, msg), s') /\
    msg <> "".
Proof.
  destruct (generate_content (model self) (request image question) (world s))
    as [[resp|e] w'] eqn:Hgen.
  - destruct (Response_text resp) as [t|e] eqn:Htext.
    + rewrite (analyze_image_text self image question s resp t w' Hgen Htext).
      destruct (truthy t) eqn:Ht.
      * do 3 eexists. split; [reflexivity|]. apply truthy_true_iff. exact Ht.
      * do 3 eexists. split; [reflexivity|]. discriminate.
    + rewrite (analyze_image_text_error self image question s resp e w'
                                        Hgen Htext).
      do 3 eexists. split; [reflexivity|]. apply append_nonempty. discriminate.
  - rewrite (analyze_image_raise self image question s e w' Hgen).
    do 3 eexists. split; [reflexivity|]. apply append_nonempty. discriminate.
Qed.

(** X13. When the file opens as an image of mode RGBA, LA or P and the
    conversion to RGB raises [e], [validate_image] returns
    [(False, None, "Invalid image file: " ++ str e)]: the failure of
    [convert] is reported like a failure to decode, and no image is
    returned. *)
Theorem validate_image_conversion_failure
        (f : UploadedFile) (s : State) (img : Image) (e : Exception)
        (w1 w2 : World) :
  size f <= 10 * 1024 * 1024 ->
  Image_open f (world s) = (Return img, w1) ->
  In (Image_mode img) ["RGBA"; "LA"; "P"] ->
  Image_convert img "RGB" w1 = (Raise e, w2) ->
  validate_image (Some f) s
  = (Return (false, None, "Invalid image file: " ++ str e),
     {| world := w2; calls := calls s ++ [EvOpen f; EvConvert img "RGB"] |}).
Proof.
  intros Hsize Hopen Hmode Hconv.
  apply str_in_spec in Hmode.
  exact (validate_image_convert_failure f s img e w1 w2
                                        Hsize Hopen Hmode Hconv).
Qed.


End CoreProperties.

(** ** The page on the simulated libraries *)

(** A press of the button with everything in place: the file is opened and
    converted, the service is configured, and the question goes out as it
    was typed, blanks included. *)
Example scenario_press :
  main_analyze (F := Front.for_sim) true "secret" (Some Examples.rgba_file)
               "  What is in this picture? "
               (Front.fresh_sim [Examples.reply "A red bicycle."])
  = (Return tt,
     mkSession
       (L := Sim.libs)
       (mkState
          (L := Sim.libs) (Sim.mkWorld (Some "secret") [])
          [EvOpen Examples.rgba_file;
           EvConvert Examples.rgba_image "RGB";
           EvConfigure "secret";
           EvGenerativeModel "gemini-1.5-flash";
           EvLogInfo "Gemini model initialized.";
           EvGenerate
             (L := Sim.libs) "gemini-1.5-flash"
             [PText "Please analyze the picture and answer the question:   What is in this picture? ";
              PImage Examples.rgb_image]])
       [StSpinner "Initializing Gemini...";
        StSpinner "Analyzing image...";
        StMarkdown "<div class='section-header'>📋 Result</div>";
        StMarkdown "<div class='success-box'>A red bicycle.</div>"]).
Proof. reflexivity. Qed.

(** A question of blanks is stopped before the file is opened. *)
Example scenario_press_blank_question :
  main_analyze (F := Front.for_sim) true "secret" (Some Examples.rgba_file)
               "   " (Front.fresh_sim [])
  = (Return tt,
     mkSession
       (L := Sim.libs) (Sim.start [])
       [StMarkdown "<div class='error-box'>❗ Please enter a question.</div>"]).
Proof. reflexivity. Qed.

(** A picture cut short but decoded as RGB passes [validate_image] with the
    lazy decoder, which does not read its pixels. *)
Example scenario_lazy_truncated :
  fst (validate_image (L := Lazy.libs) (Some Examples.rgb_file) (Lazy.start []))
  = Return (true, Some (Lazy.mkImage "RGB" 16 16 []),
            "Image validated successfully.").
Proof. reflexivity. Qed.

(** *** The theorems at concrete inputs *)

(** [main_analyze_missing_input] with nothing given: the key is asked for. *)
Lemma main_analyze_missing_input_witness :
  main_analyze (F := Front.for_sim) true "" None "" (Front.fresh_sim [])
  = (Return tt,
     mkSession
       (L := Sim.libs) (Sim.start [])
       [StMarkdown "<div class='error-box'>❗ Please provide your API key.</div>"]).
Proof.
  apply (main_analyze_missing_input
           (F := Front.for_sim) "" None "" (Front.fresh_sim [])).
  left. reflexivity.
Defined.

(** [main_analyze_sends_normalized] on a picture with an alpha channel. *)
Lemma main_analyze_sends_normalized_witness :
  exists new : list (Event (L := Sim.libs)),
    calls (backend (snd (main_analyze
                           (F := Front.for_sim) true "secret"
                           (Some Examples.rgba_file) "What is in this picture?"
                           (Front.fresh_sim [Examples.reply "A red bicycle."]))))
    = (calls (backend (Front.fresh_sim [Examples.reply "A red bicycle."]))
       ++ new)%list /\
    (forall m parts,
        In (EvGenerate m parts) new ->
        exists img : @Image Sim.libs,
          parts
          = [PText ("Please analyze the picture and answer the question: "
                    ++ "What is in this picture?");
             PImage img] /\
          str_in (Image_mode img) ["RGBA"; "LA"; "P"] = false).
Proof.
  apply (main_analyze_sends_normalized
           (F := Front.for_sim) true "secret" (Some Examples.rgba_file)
           "What is in this picture?"
           (Front.fresh_sim [Examples.reply "A red bicycle."])
           sim_convert_gives_mode).
Defined.

(** [main_analyze_init_failure] on a key that the service refuses. *)
Lemma main_analyze_init_failure_witness :
  main_analyze (F := Front.for_lazy) true "guess" (Some Examples.rgb_file)
               "What is in this picture?" (Front.fresh_lazy [])
  = (Return tt,
     mkSession
       (L := Lazy.libs)
       (mkState
          (L := Lazy.libs) (Sim.mkWorld (Some "guess") [])
          [EvOpen Examples.rgb_file;
           EvConfigure "guess";
           EvGenerativeModel "gemini-1.5-flash";
           EvLogError "Gemini init failed: 403 API key not valid."])
       [StSpinner "Initializing Gemini...";
        StMarkdown "<div class='error-box'>🚫 Error: 403 API key not valid.</div>"]).
Proof.
  refine (proj1 (main_analyze_init_failure
                   (F := Front.for_lazy) "guess" Examples.rgb_file
                   "What is in this picture?" (Front.fresh_lazy [])
                   (Some (Lazy.mkImage "RGB" 16 16 []))
                   "Image validated successfully."
                   (mkState (L := Lazy.libs) (Sim.mkWorld None [])
                            [EvOpen Examples.rgb_file])
                   (mkState
                      (L := Lazy.libs) (Sim.mkWorld (Some "guess") [])
                      [EvOpen Examples.rgb_file;
                       EvConfigure "guess";
                       EvGenerativeModel "gemini-1.5-flash";
                       EvLogError "Gemini init failed: 403 API key not valid."])
                   (mkException "PermissionDenied" "403 API key not valid.")
                   _ _ _ _)).
  - discriminate.
  - discriminate.
  - reflexivity.
  - reflexivity.
Defined.

(** [main_analyze_shows_answer] on an answer of the service. *)
Lemma main_analyze_shows_answer_witness :
  snd (main_analyze (F := Front.for_sim) true "secret"
                    (Some Examples.rgba_file) "What is in this picture?"
                    (Front.fresh_sim [Examples.reply "A red bicycle."]))
  = mkSession
      (L := Sim.libs)
      (mkState
         (L := Sim.libs) (Sim.mkWorld (Some "secret") [])
         [EvOpen Examples.rgba_file;
          EvConvert Examples.rgba_image "RGB";
          EvConfigure "secret";
          EvGenerativeModel "gemini-1.5-flash";
          EvLogInfo "Gemini model initialized.";
          EvGenerate (L := Sim.libs) "gemini-1.5-flash"
                     (request Examples.rgb_image "What is in this picture?")])
      [StSpinner "Initializing Gemini...";
       StSpinner "Analyzing image...";
       StMarkdown "<div class='section-header'>📋 Result</div>";
       StMarkdown "<div class='success-box'>A red bicycle.</div>"].
Proof.
  rewrite (main_analyze_shows_answer
             (F := Front.for_sim) "secret" Examples.rgba_file
             "What is in this picture?"
             (Front.fresh_sim [Examples.reply "A red bicycle."])
             Examples.rgb_image "Image validated successfully."
             (mkState (L := Sim.libs)
                      (Sim.mkWorld None [Examples.reply "A red bicycle."])
                      [EvOpen Examples.rgba_file;
                       EvConvert Examples.rgba_image "RGB"])
             (mkState (L := Sim.libs)
                      (Sim.mkWorld (Some "secret")
                                   [Examples.reply "A red bicycle."])
                      [EvOpen Examples.rgba_file;
                       EvConvert Examples.rgba_image "RGB";
                       EvConfigure "secret";
                       EvGenerativeModel "gemini-1.5-flash";
                       EvLogInfo "Gemini model initialized."])
             (mkGeminiVisionAnalyzer (L := Sim.libs) "gemini-1.5-flash")
             (Sim.mkResponse ["A red bicycle."]) "A red bicycle."
             (Sim.mkWorld (Some "secret") [])).
  - reflexivity.
  - discriminate.
  - discriminate.
  - reflexivity.
  - reflexivity.
  - reflexivity.
  - reflexivity.
  - discriminate.
Defined.

(** [main_analyze_shows_remote_error] when the service is out of quota. *)
Lemma main_analyze_shows_remote_error_witness :
  shown (snd (main_analyze (F := Front.for_sim) true "secret"
                           (Some Examples.rgb_file) "What is in this picture?"
                           (Front.fresh_sim [Raise Examples.quota_error])))
  = [StSpinner "Initializing Gemini...";
     StSpinner "Analyzing image...";
     StMarkdown "<div class='error-box'>Error: 429 Quota exceeded.</div>"].
Proof.
  rewrite (main_analyze_shows_remote_error
             (F := Front.for_sim) "secret" Examples.rgb_file
             "What is in this picture?"
             (Front.fresh_sim [Raise Examples.quota_error])
             Examples.rgb_image "Image validated successfully."
             (mkState (L := Sim.libs)
                      (Sim.mkWorld None [Raise Examples.quota_error])
                      [EvOpen Examples.rgb_file])
             (mkState (L := Sim.libs)
                      (Sim.mkWorld (Some "secret")
                                   [Raise Examples.quota_error])
                      [EvOpen Examples.rgb_file;
                       EvConfigure "secret";
                       EvGenerativeModel "gemini-1.5-flash";
                       EvLogInfo "Gemini model initialized."])
             (mkGeminiVisionAnalyzer (L := Sim.libs) "gemini-1.5-flash")
             Examples.quota_error
             (Sim.mkWorld (Some "secret") [])).
  - reflexivity.
  - discriminate.
  - discriminate.
  - reflexivity.
  - reflexivity.
  - reflexivity.
Defined.

(** [main_upload_image_failure] on a picture cut short: it passes the
    validation and fails when it is shown. *)
Lemma main_upload_image_failure_witness :
  main_upload (F := Front.for_lazy) (Some Examples.rgb_file)
              (Front.fresh_lazy [])
  = (Raise (mkException "OSError" "image file is truncated"),
     mkSession
       (L := Lazy.libs)
       (mkState (L := Lazy.libs) (Sim.mkWorld None [])
                [EvOpen Examples.rgb_file])
       [StImage (L := Lazy.libs) (Lazy.mkImage "RGB" 16 16 []) "Uploaded Image"]).
Proof.
  apply (main_upload_image_failure
           (F := Front.for_lazy) Examples.rgb_file (Front.fresh_lazy [])
           (Lazy.mkImage "RGB" 16 16 []) "Image validated successfully."
           (mkState (L := Lazy.libs) (Sim.mkWorld None [])
                    [EvOpen Examples.rgb_file])
           (mkException "OSError" "image file is truncated")
           (Sim.mkWorld None [])).
  - reflexivity.
  - reflexivity.
Defined.

(** [validate_image_conversion_failure] on a picture with an alpha channel
    that is cut short. *)
Lemma validate_image_conversion_failure_witness :
  validate_image (L := Lazy.libs) (Some Examples.rgba_file) (Lazy.start [])
  = (Return (false, None, "Invalid image file: image file is truncated"),
     mkState (L := Lazy.libs) (Sim.mkWorld None [])
             [EvOpen Examples.rgba_file;
              EvConvert (L := Lazy.libs) (Lazy.mkImage "RGBA" 16 16 []) "RGB"]).
Proof.
  apply (validate_image_conversion_failure
           (L := Lazy.libs) Examples.rgba_file (Lazy.start [])
           (Lazy.mkImage "RGBA" 16 16 [])
           (mkException "OSError" "image file is truncated")
           (Sim.mkWorld None []) (Sim.mkWorld None [])).
  - simpl. intro H. discriminate H.
  - reflexivity.
  - simpl. left. reflexivity.
  - reflexivity.
Defined.


(** [analyze_image_text_raises] on a response with no candidate. *)
Lemma analyze_image_text_raises_witness :
  analyze_image Examples.analyzer Examples.rgb_image "What is in this picture?"
                (Sim.start [Return (Sim.mkResponse [])])
  = (Return (false, "Error: The response has no candidates."),
     mkState (L := Sim.libs) (Sim.mkWorld None [])
             [EvGenerate (model Examples.analyzer)
                         (request Examples.rgb_image "What is in this picture?")])
  /\ "Error: The response has no candidates." <> "No response from model.".
Proof.
  apply (analyze_image_text_raises
           Examples.analyzer Examples.rgb_image "What is in this picture?"
           (Sim.start [Return (Sim.mkResponse [])])
           (Sim.mkResponse [])
           (mkException "ValueError" "The response has no candidates.")
           (Sim.mkWorld None [])).
  - reflexivity.
  - reflexivity.
Defined.

(** *** More places where the specification says more than the code does *)

(** C4 as the specification has it fails on a response that carries no
    text.  The remote call returns (it does not raise), the response has no
    candidate, and reading its [text] raises, as the client library does;
    the exception is caught by [analyze_image], whose result is the one of
    an error, not [(False, "No response from model.")]. *)
Lemma analyze_image_no_text_is_error :
  @generate_content
    Sim.libs (model Examples.analyzer)
    (request Examples.rgb_image "What is in this picture?")
    (Sim.mkWorld None [Return (Sim.mkResponse [])])
  = (Return (Sim.mkResponse []), Sim.mkWorld None []) /\
  Sim.candidates (Sim.mkResponse []) = [] /\
  analyze_image Examples.analyzer Examples.rgb_image "What is in this picture?"
                (Sim.start [Return (Sim.mkResponse [])])
  = (Return (false, "Error: The response has no candidates."),
     mkState (L := Sim.libs) (Sim.mkWorld None [])
             [EvGenerate (model Examples.analyzer)
                         (request Examples.rgb_image "What is in this picture?")])
  /\
  (false, "Error: The response has no candidates.")
  <> (false, "No response from model.").
Proof.
  split; [reflexivity|]. split; [reflexivity|]. split; [reflexivity|].
  discriminate.
Qed.

